(** * webHook backend: shallow embedding and verified properties

    The repository is an Express backend with three layers:
    - [googleService] (readSheet, copySheet, makeFilePublic,
      verifyPublicAccess, uploadSpreadsheet, sendToN8n),
    - the controllers ([getSheetDataWebhook], [uploadSpreadsheetController]),
    - the route middleware ([ensureAuthenticated]).

    Every function below is a transcription of the JavaScript function of
    the same name.  Remote calls (Drive, Sheets, OAuth, axios) are answered
    by an oracle, the [world]; each call is recorded in a trace of [event]s,
    and a thrown [Error] is carried as its message. *)

From stdpp Require Import gmap strings list pretty.
From Stdlib Require Import ZArith Ascii.

Open Scope string_scope.
Open Scope Z_scope.
Open Scope list_scope.

(** ** JavaScript values *)

(** The scalar values that reach the code as sheet cells, query parameters
    and metadata entries.  A number is given by the text JavaScript prints
    for it ([Number.prototype.toString]: [4], [1.5], [1e+21], [NaN]), which
    is all the code ever asks of a number besides its truth value; zero of
    either sign prints as [0]. *)
Inductive jsval : Type :=
  | VUndef
  | VNull
  | VBool (b : bool)
  | VNum (text : string)
  | VStr (s : string).

#[global] Instance jsval_eq_dec : EqDecision jsval.
Proof. solve_decision. Defined.

(** ToBoolean. *)
Definition truthy (v : jsval) : bool :=
  match v with
  | VUndef | VNull => false
  | VBool b => b
  | VNum text => negb (String.eqb text "0" || String.eqb text "NaN")
  | VStr s => negb (String.eqb s "")
  end.

(** [a || b]. *)
Definition js_or (a b : jsval) : jsval := if truthy a then a else b.

(** ToString / ToPropertyKey on scalars. *)
Definition toString (v : jsval) : string :=
  match v with
  | VUndef => "undefined"
  | VNull => "null"
  | VBool true => "true"
  | VBool false => "false"
  | VNum text => text
  | VStr s => s
  end.

(** ** Values of a metadata object

    What [req.body.metadata] (parsed JSON) or an object literal can hold
    under a key: a scalar, an array or an object. *)
#[warnings="-register-all"] Inductive metaval : Type :=
  | MVal (v : jsval)
  | MArr (items : list metaval)
  | MObj (fields : list (string * metaval)).

Coercion MVal : jsval >-> metaval.

(** The object has an own property of that name. *)
Definition has_own (key : string) (fields : list (string * metaval)) : bool :=
  existsb (λ kv, String.eqb (fst kv) key) fields.

(** ToString of a value, [None] when it raises a TypeError.  An array joins
    the texts of its elements with commas, null and undefined elements
    giving the empty text; an object prints as [[object Object]] unless it
    has an own [toString] property, which, coming from JSON or a literal of
    data, is not a function. *)
Fixpoint to_text (v : metaval) : option string :=
  match v with
  | MVal s => Some (toString s)
  | MArr items =>
      (fix join (items : list metaval) : option string :=
         match items with
         | [] => Some ""
         | x :: rest =>
             match (match x with
                    | MVal VUndef | MVal VNull => Some ""
                    | _ => to_text x
                    end) with
             | None => None
             | Some first =>
                 match rest with
                 | [] => Some first
                 | _ :: _ =>
                     match join rest with
                     | None => None
                     | Some others => Some (first +:+ "," +:+ others)
                     end
                 end
             end
         end) items
  | MObj fields =>
      if has_own "toString" fields then None else Some "[object Object]"
  end.

(** [value !== null && value !== undefined]. *)
Definition present (v : metaval) : bool :=
  match v with
  | MVal VNull | MVal VUndef => false
  | _ => true
  end.

(** The message of the TypeError [value.toString()] raises: on an object
    the own [toString] is not a function, inside an array the element cannot
    be converted. *)
Definition toString_error (v : metaval) : string :=
  match v with
  | MObj _ => "value.toString is not a function"
  | _ => "Cannot convert object to primitive value"
  end.

(** An optional string field ([undefined] or [null] when absent). *)
Definition truthy_str (o : option string) : bool :=
  match o with
  | Some s => negb (String.eqb s "")
  | None => false
  end.

(** [o || d] where [d] is a string. *)
Definition or_str (o : option string) (d : string) : string :=
  match o with
  | Some s => if String.eqb s "" then d else s
  | None => d
  end.

(** [o || null]. *)
Definition or_null (o : option string) : option string :=
  if truthy_str o then o else None.

(** [a[i]] on an array: [undefined] out of range. *)
Definition array_get (a : list jsval) (i : nat) : jsval :=
  default VUndef (a !! i).

(** [s.includes(needle)]. *)
Definition includes (s needle : string) : bool :=
  match String.index 0 needle s with
  | Some _ => true
  | None => false
  end.

(** ** Plain objects built by assignment

    [obj[key] = value] on an object created by [{}].  The properties are a
    finite map.  The key [__proto__] is not an ordinary property of such an
    object: assignment to it reaches the accessor inherited from
    [Object.prototype], which ignores a primitive value and sets the
    prototype for [null]; once the prototype is [null] the accessor is gone
    and [__proto__] is an ordinary key. *)
Record obj : Type := mkObj {
  obj_null_proto : bool;
  obj_props : gmap string jsval
}.

Definition obj_empty : obj := mkObj false ∅.

Definition obj_set (key : string) (value : jsval) (o : obj) : obj :=
  if String.eqb key "__proto__" && negb (obj_null_proto o) then
    match value with
    | VNull => mkObj true (obj_props o)
    | _ => o
    end
  else mkObj (obj_null_proto o) (<[key := value]> (obj_props o)).

(** ** Errors, remote calls and their trace *)

(** The outcome of a computation: a value, or a thrown [Error] with its
    [message]. *)
Inductive res (A : Type) : Type :=
  | Ok (a : A)
  | Throw (message : string).
Arguments Ok {A} a.
Arguments Throw {A} message.

(** Drive file resource, as far as the requested [fields] are used. *)
Record permission : Type := mkPermission {
  perm_id : string;
  perm_type : string;
  perm_role : string
}.

Record fileResource : Type := mkFileResource {
  fr_id : string;
  fr_name : string;
  fr_webViewLink : option string;
  fr_webContentLink : option string;
  fr_permissions : list permission
}.

Record uploadedFile : Type := mkUploadedFile {
  originalname : string;
  mimetype : string;
  buffer : list Byte.byte
}.

(** What an HTTP GET meets: a response, or no response at all. *)
Inductive httpOutcome : Type :=
  | Response (status : Z) (data : string)
  | NetworkError (message : string).

Record axiosResponse : Type := mkAxiosResponse {
  ar_status : Z;
  ar_data : string
}.

(** The remote calls the program issues. *)
Inductive event : Type :=
  | DriveFilesGet (fileId fields : string)
  | DriveFilesCopy (fileId name : string)
  | DriveFilesCreate (name mimeType mediaMimeType : string)
  | DrivePermissionsCreate (fileId role type : string) (allowFileDiscovery : bool)
  | SheetsValuesGet (spreadsheetId range : string)
  | OAuthGetAccessToken
  | AxiosGet (url : string) (maxRedirects : option Z).

(** The environment of one request: configuration, clock, and the answer of
    every remote service to every call. *)
Record world : Type := mkWorld {
  env_WEBHOOK_TOKEN : option string;
  env_N8N_WEBHOOK_URL : option string;
  now_ISO : string;
  drive_files_get : string → string → string → res fileResource;
  drive_files_copy : string → string → string → res fileResource;
  drive_files_create : string → string → uploadedFile → res fileResource;
  drive_permissions_create : string → string → res permission;
  sheets_values_get : option string → string → string → res (option (list (list jsval)));
  oauth_getAccessToken : res (option string);
  http_get : option Z → string → httpOutcome
}.

(** Computations: read the world, return a value or throw, and log the
    remote calls issued. *)
Definition M (A : Type) : Type := world → res A * list event.

#[global] Instance M_ret : MRet M := λ A a _, (Ok a, []).

#[global] Instance M_bind : MBind M := λ A B f m w,
  match m w with
  | (Ok a, t) => let '(r, t') := f a w in (r, t ++ t')
  | (Throw e, t) => (Throw e, t)
  end.

Definition throw {A} (message : string) : M A := λ _, (Throw message, []).

(** [try { body } catch (error) { handler error.message }]. *)
Definition try_catch {A} (body : M A) (handler : string → M A) : M A := λ w,
  match body w with
  | (Ok a, t) => (Ok a, t)
  | (Throw e, t) => let '(r, t') := handler e w in (r, t ++ t')
  end.

Definition ask : M world := λ w, (Ok w, []).

(** One remote call: logged, answered by the world. *)
Definition remote {A} (ev : event) (answer : world → res A) : M A :=
  λ w, (answer w, [ev]).

(** [axios.get(url, { maxRedirects, validateStatus })]: the promise rejects
    when there is no response or when [validateStatus] refuses the status. *)
Definition axios_get (url : string) (maxRedirects : option Z)
    (validateStatus : Z → bool) : M axiosResponse :=
  remote (AxiosGet url maxRedirects) (λ w,
    match http_get w maxRedirects url with
    | Response status data =>
        if validateStatus status then Ok (mkAxiosResponse status data)
        else Throw ("Request failed with status code " +:+ pretty status)
    | NetworkError message => Throw message
    end).

(** axios' default [validateStatus]. *)
Definition default_validateStatus (status : Z) : bool :=
  (200 <=? status) && (status <? 300).

(** ** [URLSearchParams.prototype.toString]

    The application/x-www-form-urlencoded serializer, on the UTF-8 bytes of
    names and values. *)
Definition form_keep (n : N) : bool :=
  ((48 <=? n) && (n <=? 57) || (65 <=? n) && (n <=? 90) ||
   (97 <=? n) && (n <=? 122) ||
   (n =? 42) || (n =? 45) || (n =? 46) || (n =? 95))%N.

Definition hex_digit (n : N) : ascii :=
  (if n <? 10 then ascii_of_N (48 + n) else ascii_of_N (55 + n))%N.

Definition form_byte (c : ascii) : string :=
  let n := N_of_ascii c in
  if (n =? 32)%N then "+"
  else if form_keep n then String c ""
  else String "%"%char (String (hex_digit (n / 16)) (String (hex_digit (n mod 16)) "")).

Fixpoint form_encode (s : string) : string :=
  match s with
  | EmptyString => ""
  | String c rest => form_byte c +:+ form_encode rest
  end.

Definition URLSearchParams_toString (params : list (string * string)) : string :=
  String.concat "&"
    (map (λ kv, form_encode (fst kv) +:+ "=" +:+ form_encode (snd kv)) params).

(** ** services/googleService *)

Definition sheet_url (fileId : string) : string :=
  "https://docs.google.com/spreadsheets/d/" +:+ fileId +:+ "/edit?usp=sharing".

(** [readSheet(accessToken, spreadsheetId, range)]. *)
Definition readSheet (accessToken : option string) (spreadsheetId range : string)
    : M (list (list jsval)) :=
  try_catch
    (values ← remote (SheetsValuesGet spreadsheetId range)
                (λ w, sheets_values_get w accessToken spreadsheetId range);
     mret (default [] values))
    (λ error, throw ("Failed to read Google Sheet (ID: " +:+ spreadsheetId
                       +:+ "). Reason: " +:+ error)).

(** [copySheet(accessToken, sourceSheetId, newSheetName)]. *)
Definition copySheet (accessToken sourceSheetId : string)
    (newSheetName : option string) : M fileResource :=
  try_catch
    (originalName ←
       try_catch
         (fileMetadata ← remote (DriveFilesGet sourceSheetId "name")
                           (λ w, drive_files_get w accessToken sourceSheetId "name");
          mret (fr_name fileMetadata))
         (λ err, mret "Spreadsheet");
     let name := or_str newSheetName ("Copy of " +:+ originalName) in
     remote (DriveFilesCopy sourceSheetId name)
       (λ w, drive_files_copy w accessToken sourceSheetId name))
    (λ error, throw ("Failed to copy Google Sheet (ID: " +:+ sourceSheetId
                       +:+ "). Reason: " +:+ error)).

(** [verifyPublicAccess(fileId)]. *)
Definition verifyPublicAccess (fileId : string) : M bool :=
  try_catch
    (response ← axios_get (sheet_url fileId) (Some 0) (λ status, status <? 400);
     if ar_status response =? 200 then mret true else mret true)
    (λ error, mret false).

Record publicPermissions : Type := mkPublicPermissions {
  permissionId : string;
  permissionType : string;
  permissionRole : string;
  pp_webViewLink : option string;
  pp_webContentLink : option string;
  pp_publicUrl : string;
  pp_permissions : list permission
}.

(** The [fields] of the two [drive.files.get] calls of [makeFilePublic]. *)
Definition check_fields : string := "id,name,mimeType,permissions".
Definition info_fields : string :=
  "webViewLink,webContentLink,permissions,sharingUser,shared".

Definition makeFilePublic_error (fileId error : string) : string :=
  "Failed to make file public (ID: " +:+ fileId +:+ "). Reason: " +:+ error.

(** [makeFilePublic(accessToken, fileId)]. *)
Definition makeFilePublic (accessToken fileId : string) : M publicPermissions :=
  try_catch
    (try_catch
       (remote (DriveFilesGet fileId check_fields)
          (λ w, drive_files_get w accessToken fileId check_fields);; mret ())
       (λ checkError, mret ());;
     response ← remote (DrivePermissionsCreate fileId "writer" "anyone" false)
                  (λ w, drive_permissions_create w accessToken fileId);
     fileInfo ← remote (DriveFilesGet fileId info_fields)
                  (λ w, drive_files_get w accessToken fileId info_fields);
     try_catch
       (verifyPublicAccess fileId;; mret ())
       (λ verifyError, mret ());;
     mret {| permissionId := perm_id response;
             permissionType := perm_type response;
             permissionRole := perm_role response;
             pp_webViewLink := fr_webViewLink fileInfo;
             pp_webContentLink := or_null (fr_webContentLink fileInfo);
             pp_publicUrl := sheet_url fileId;
             pp_permissions := fr_permissions fileInfo |})
    (λ error, throw (makeFilePublic_error fileId error)).

(** The object [response.data] of [uploadSpreadsheet]: the created file, to
    which the function adds fields ([None] while a field is unset). *)
Record spreadsheetData : Type := mkSpreadsheetData {
  sd_id : string;
  sd_name : string;
  sd_webViewLink : option string;
  sd_permissions : list permission;
  sd_publicUrl : option string;
  sd_isPublic : option bool;
  sd_publicPermissions : option publicPermissions;
  sd_publicPermissionError : option string
}.

Definition created_data (f : fileResource) : spreadsheetData :=
  {| sd_id := fr_id f; sd_name := fr_name f;
     sd_webViewLink := fr_webViewLink f; sd_permissions := fr_permissions f;
     sd_publicUrl := None; sd_isPublic := None;
     sd_publicPermissions := None; sd_publicPermissionError := None |}.

(** [uploadSpreadsheet(accessToken, file, fileName, makePublic)].  The two
    second pause after the permission call has no effect on the result and
    is left out. *)
Definition uploadSpreadsheet (accessToken : string) (file : uploadedFile)
    (fileName : option string) (makePublic : bool) : M spreadsheetData :=
  try_catch
    (let name := or_str fileName (originalname file) in
     response ← remote (DriveFilesCreate name "application/vnd.google-apps.spreadsheet"
                          (mimetype file))
                  (λ w, drive_files_create w accessToken name file);
     let data := created_data response in
     if makePublic then
       try_catch
         (publicPermissions ← makeFilePublic accessToken (sd_id data);
          mret {| sd_id := sd_id data; sd_name := sd_name data;
                  sd_webViewLink := pp_webViewLink publicPermissions;
                  sd_permissions := sd_permissions data;
                  sd_publicUrl := Some (pp_publicUrl publicPermissions);
                  sd_isPublic := Some true;
                  sd_publicPermissions := Some publicPermissions;
                  sd_publicPermissionError := sd_publicPermissionError data |})
         (λ permError,
          mret {| sd_id := sd_id data; sd_name := sd_name data;
                  sd_webViewLink := sd_webViewLink data;
                  sd_permissions := sd_permissions data;
                  sd_publicUrl := sd_publicUrl data;
                  sd_isPublic := Some false;
                  sd_publicPermissions := sd_publicPermissions data;
                  sd_publicPermissionError := Some permError |})
     else
       mret {| sd_id := sd_id data; sd_name := sd_name data;
               sd_webViewLink := sd_webViewLink data;
               sd_permissions := sd_permissions data;
               sd_publicUrl := sd_publicUrl data;
               sd_isPublic := Some false;
               sd_publicPermissions := sd_publicPermissions data;
               sd_publicPermissionError := sd_publicPermissionError data |})
    (λ error, throw ("Failed to upload spreadsheet. Reason: " +:+ error)).

(** The loop of [sendToN8n] over [Object.entries(metadata)]: the pairs it
    appends, or the message of the error [value.toString()] raises. *)
Fixpoint metadata_params (metadata : list (string * metaval))
    : res (list (string * string)) :=
  match metadata with
  | [] => Ok []
  | (key, value) :: rest =>
      if present value then
        match to_text value with
        | None => Throw (toString_error value)
        | Some text =>
            match metadata_params rest with
            | Ok params => Ok ((key, text) :: params)
            | Throw message => Throw message
            end
        end
      else metadata_params rest
  end.

(** The three parameters appended first, then those of the metadata. *)
Definition n8n_params (spreadsheetId timestamp : string)
    (appended : list (string * string)) : list (string * string) :=
  [("spreadsheetId", spreadsheetId); ("timestamp", timestamp);
   ("source", "RetailSyncSaaS")] ++ appended.

Definition n8n_url (n8nWebhookUrl : string) (params : list (string * string)) : string :=
  n8nWebhookUrl +:+ (if includes n8nWebhookUrl "?" then "&" else "?")
    +:+ URLSearchParams_toString params.

(** A value or an error already at hand. *)
Definition of_res {A} (r : res A) : M A := λ _, (r, []).

(** [sendToN8n(spreadsheetId, n8nWebhookUrl, metadata)]. *)
Definition sendToN8n (spreadsheetId n8nWebhookUrl : string)
    (metadata : list (string * metaval)) : M string :=
  try_catch
    (w ← ask;
     appended ← of_res (metadata_params metadata);
     let params := n8n_params spreadsheetId (now_ISO w) appended in
     let fullUrl := n8n_url n8nWebhookUrl params in
     response ← axios_get fullUrl None default_validateStatus;
     mret (ar_data response))
    (λ error, throw ("Failed to send data to n8n: " +:+ error)).

(** ** HTTP responses

    [res.status(s).json(b)]: one constructor per object literal the
    handlers send. *)
Record n8nForwarding : Type := mkForwarding {
  nf_success : bool;
  nf_webhookUrl : string;
  nf_result : option string;
  nf_error : option string
}.

Inductive body : Type :=
  | BMessage (message : string)
  | BMessageError (message error : string)
  | BError (error : string)
  | BErrorMessage (error message : string)
  | BData (data : list obj)
  | BSheet (sheetId range : string) (rowCount : nat) (data : list obj)
  | BUploaded (message : string) (spreadsheet : spreadsheetData)
      (forwarding : n8nForwarding).

Record httpResponse : Type := mkResponse {
  status : Z;
  resp_body : body
}.

(** The fields of a response body, by name. *)
Definition body_rowCount (b : body) : option nat :=
  match b with
  | BSheet _ _ rowCount _ => Some rowCount
  | _ => None
  end.

Definition body_data (b : body) : option (list obj) :=
  match b with
  | BData data | BSheet _ _ _ data => Some data
  | _ => None
  end.

Definition body_error (b : body) : option string :=
  match b with
  | BMessageError _ error | BError error | BErrorMessage error _ => Some error
  | _ => None
  end.

Definition body_spreadsheet (b : body) : option spreadsheetData :=
  match b with
  | BUploaded _ spreadsheet _ => Some spreadsheet
  | _ => None
  end.

Definition body_n8nForwarding (b : body) : option n8nForwarding :=
  match b with
  | BUploaded _ _ forwarding => Some forwarding
  | _ => None
  end.

(** ** controllers/webhookController *)

Record webhookQuery : Type := mkQuery {
  q_spreadsheetId : option string;
  q_range : option string;
  q_webhookToken : option string
}.

(** [headers.forEach((header, index) => { obj[header] = row[index] || null })],
    from position [index] on. *)
Fixpoint forEach_header (headers : list jsval) (index : nat) (row : list jsval)
    (o : obj) : obj :=
  match headers with
  | [] => o
  | header :: rest =>
      forEach_header rest (S index) row
        (obj_set (toString header) (js_or (array_get row index) VNull) o)
  end.

(** The callback of [sheetData.slice(1).map]. *)
Definition row_to_obj (headers row : list jsval) : obj :=
  forEach_header headers 0 row obj_empty.

(** [getSheetDataWebhook(req, res)]. *)
Definition getSheetDataWebhook (query : webhookQuery) : M httpResponse :=
  w ← ask;
  let expectedToken := env_WEBHOOK_TOKEN w in
  if negb (truthy_str (q_webhookToken query))
     || negb (bool_decide (q_webhookToken query = expectedToken)) then
    mret (mkResponse 401 (BError "Invalid webhook token"))
  else if negb (truthy_str (q_spreadsheetId query)) then
    mret (mkResponse 400 (BError "Missing required parameter: spreadsheetId"))
  else
    let spreadsheetId := default "" (q_spreadsheetId query) in
    try_catch
      (accessToken ← remote OAuthGetAccessToken oauth_getAccessToken;
       sheetData ← readSheet accessToken spreadsheetId (or_str (q_range query) "Sheet1");
       if (length sheetData <? 1)%nat then
         mret (mkResponse 200 (BData []))
       else
         let headers := default [] (head sheetData) in
         let rows := map (row_to_obj headers) (drop 1 sheetData) in
         mret (mkResponse 200
                 (BSheet spreadsheetId (or_str (q_range query) "Sheet1")
                    (length rows) rows)))
      (λ error, mret (mkResponse 500 (BErrorMessage "Failed to read Google Sheet" error))).

(** ** controllers/sheetController *)

Record user : Type := mkUser {
  user_id : string;
  displayName : option string;
  email : option string;
  accessToken : option string;
  refreshToken : option string
}.

Record apiRequest : Type := mkApiRequest {
  isAuthenticated : bool;
  req_user : option user;
  req_file : option uploadedFile;
  body_fileName : option string
}.

(** [req.user && req.user.accessToken], as the token when it is truthy. *)
Definition user_accessToken (req : apiRequest) : option string :=
  match req_user req with
  | Some u => or_null (accessToken u)
  | None => None
  end.

Definition opt_val (o : option string) : jsval :=
  match o with
  | Some s => VStr s
  | None => VUndef
  end.

(** [req.user.email || req.user.displayName]. *)
Definition uploadedBy (u : option user) : jsval :=
  match u with
  | Some u => if truthy_str (email u) then opt_val (email u) else opt_val (displayName u)
  | None => VUndef
  end.

Definition default_n8n_url : string :=
  "https://shivam02020.app.n8n.cloud/webhook-test/0abe2d8f-0510-49d9-928e-d29d8d49291f".

(** The metadata object [uploadSpreadsheetController] passes to [sendToN8n]. *)
Definition upload_metadata (uploadedFileData : spreadsheetData) (publicUrl : string)
    (u : option user) (file : uploadedFile) : list (string * metaval) :=
  [("fileName", MVal (VStr (sd_name uploadedFileData)));
   ("webViewLink", MVal (opt_val (sd_webViewLink uploadedFileData)));
   ("publicUrl", MVal (VStr publicUrl));
   ("uploadedBy", MVal (uploadedBy u));
   ("sourceFile", MVal (VStr (originalname file)));
   ("isPublic",
    MVal (VStr (if bool_decide (sd_isPublic uploadedFileData = Some true)
                then "true" else "false")))].

(** [uploadSpreadsheetController(req, res)]. *)
Definition uploadSpreadsheetController (req : apiRequest) : M httpResponse :=
  match user_accessToken req with
  | None => mret (mkResponse 401 (BMessage "Authentication required or access token missing."))
  | Some accessToken =>
    match req_file req with
    | None => mret (mkResponse 400 (BMessage "No file uploaded. Please upload a spreadsheet file."))
    | Some file =>
      try_catch
        (uploadedFileData ← uploadSpreadsheet accessToken file (body_fileName req) true;
         w ← ask;
         let n8nWebhookUrl := or_str (env_N8N_WEBHOOK_URL w) default_n8n_url in
         let publicUrl := or_str (sd_publicUrl uploadedFileData)
                            (sheet_url (sd_id uploadedFileData)) in
         try_catch
           (result ← sendToN8n (sd_id uploadedFileData) n8nWebhookUrl
                       (upload_metadata uploadedFileData publicUrl (req_user req) file);
            mret (mkResponse 201
                    (BUploaded "Spreadsheet uploaded and automatically sent to n8n workflow!"
                       uploadedFileData
                       (mkForwarding true n8nWebhookUrl (Some result) None))))
           (λ webhookError,
            mret (mkResponse 201
                    (BUploaded "Spreadsheet uploaded successfully, but failed to send to n8n workflow."
                       uploadedFileData
                       (mkForwarding false n8nWebhookUrl None (Some webhookError))))))
        (λ error,
         mret (mkResponse 500 (BMessageError "Failed to upload spreadsheet to Google Drive." error)))
    end
  end.

(** ** routes/apiRoutes *)

(** What a middleware does with a request: hand it on, or answer it. *)
Inductive middleware_result : Type :=
  | Next
  | Respond (r : httpResponse).

(** [ensureAuthenticated(req, res, next)]. *)
Definition ensureAuthenticated (req : apiRequest) : middleware_result :=
  if isAuthenticated req then
    match user_accessToken req with
    | Some _ => Next
    | None => Respond (mkResponse 401 (BMessage "Access token missing in session."))
    end
  else Respond (mkResponse 401 (BMessage "Unauthorized. Please log in.")).

(** [router.<method>(path, middleware, handler)]: the handler runs only when
    the middleware calls [next]. *)
Definition route (middleware : apiRequest → middleware_result)
    (handler : apiRequest → M httpResponse) (req : apiRequest) : M httpResponse :=
  match middleware req with
  | Next => handler req
  | Respond r => mret r
  end.

(** ** Reference definitions from the specification's wording *)

(** "every metadata entry whose value is neither null nor undefined", each
    with the text of its value. *)
Definition spec_metadata_params (metadata : list (string * metaval))
    : list (string * string) :=
  map (λ kv, (fst kv, default "" (to_text (snd kv))))
    (filter (λ kv, present (snd kv) = true) metadata).

(** "the callback URL already contains '?'". *)
Fixpoint contains_char (c : ascii) (s : string) : bool :=
  match s with
  | EmptyString => false
  | String c' rest => if Ascii.eqb c c' then true else contains_char c rest
  end.

(** ** Worlds and requests used to exercise the definitions *)

(** A world that differs from [w] only in what HTTP GETs meet. *)
Definition with_http (w : world) (net : option Z → string → httpOutcome) : world :=
  {| env_WEBHOOK_TOKEN := env_WEBHOOK_TOKEN w;
     env_N8N_WEBHOOK_URL := env_N8N_WEBHOOK_URL w;
     now_ISO := now_ISO w;
     drive_files_get := drive_files_get w;
     drive_files_copy := drive_files_copy w;
     drive_files_create := drive_files_create w;
     drive_permissions_create := drive_permissions_create w;
     sheets_values_get := sheets_values_get w;
     oauth_getAccessToken := oauth_getAccessToken w;
     http_get := net |}.

Definition budget_file : fileResource :=
  mkFileResource "src-1" "Budget" (Some "https://docs.google.com/spreadsheets/d/src-1/edit")
    None [].

Definition stock_upload : uploadedFile := mkUploadedFile "stock.csv" "text/csv" [].

(** A world where Drive and OAuth answer every call, the sheet holds
    [values], the permission call answers [perm] and every GET meets [net]. *)
Definition sample_world (values : option (list (list jsval)))
    (perm : res permission) (net : httpOutcome) : world :=
  {| env_WEBHOOK_TOKEN := Some "s3cret";
     env_N8N_WEBHOOK_URL := Some "http://localhost:5678/webhook/x?mode=test";
     now_ISO := "2024-05-01T10:00:00.000Z";
     drive_files_get := λ _ fileId _, Ok (mkFileResource fileId "Budget" None None []);
     drive_files_copy := λ _ _ name, Ok (mkFileResource "copy-1" name None None []);
     drive_files_create := λ _ name _, Ok (mkFileResource "new-1" name None None []);
     drive_permissions_create := λ _ _, perm;
     sheets_values_get := λ _ _ _, Ok values;
     oauth_getAccessToken := Ok (Some "service-token");
     http_get := λ _ _, net |}.

Definition anyone_writer : permission := mkPermission "anyoneWithLink" "anyone" "writer".

Definition sample_query (token : option string) : webhookQuery :=
  mkQuery (Some "sheet-1") None token.

Definition sample_user (token : option string) : user :=
  mkUser "u-1" (Some "Ada") (Some "ada@example.org") token None.

Definition sample_request (auth : bool) (token : option string) : apiRequest :=
  mkApiRequest auth (Some (sample_user token)) (Some stock_upload) None.

(** ** controllers/sheetController: the copy and forward endpoints *)

(** [req.body.metadata] as [sendToN8nController] hands it on: absent, [null],
    or an object. *)
Inductive metadataArg : Type :=
  | MetaAbsent
  | MetaNull
  | MetaObject (entries : list (string * metaval)).

(** [sendToN8n] called with that argument.  An absent argument takes the
    default [{}]; on [null] the loop header [Object.entries(metadata)] raises
    a TypeError inside the [try], before any request is made. *)
Definition sendToN8n_metadata (spreadsheetId n8nWebhookUrl : string)
    (metadata : metadataArg) : M string :=
  match metadata with
  | MetaAbsent => sendToN8n spreadsheetId n8nWebhookUrl []
  | MetaObject entries => sendToN8n spreadsheetId n8nWebhookUrl entries
  | MetaNull =>
      try_catch (throw "Cannot convert undefined or null to object")
        (λ error, throw ("Failed to send data to n8n: " +:+ error))
  end.

(** A JSON request to [/api/sheets/copy] or [/api/sheets/send-to-n8n]:
    [req.user] and the fields of [req.body] the controllers read. *)
Record sheetRequest : Type := mkSheetRequest {
  sr_user : option user;
  sr_sourceSheetId : option string;
  sr_newSheetName : option string;
  sr_spreadsheetId : option string;
  sr_n8nWebhookUrl : option string;
  sr_metadata : metadataArg
}.

(** [req.user && req.user.accessToken], as the token when it is truthy. *)
Definition accessToken_of (u : option user) : option string :=
  match u with
  | Some u => or_null (accessToken u)
  | None => None
  end.

(** The object literals of the two controllers: the shared error shapes and
    the two success shapes [{message, newSheet}] and [{message, result}]. *)
Inductive sheetBody : Type :=
  | SbMessage (message : string)
  | SbMessageError (message error : string)
  | SbCopied (message : string) (newSheet : fileResource)
  | SbSent (message : string) (result : string).

Record sheetResponse : Type := mkSheetResponse {
  sheet_status : Z;
  sheet_body : sheetBody
}.

(** [copySheetController(req, res)]. *)
Definition copySheetController (req : sheetRequest) : M sheetResponse :=
  match accessToken_of (sr_user req) with
  | None =>
      mret (mkSheetResponse 401 (SbMessage "Authentication required or access token missing."))
  | Some accessToken =>
      if negb (truthy_str (sr_sourceSheetId req)) then
        mret (mkSheetResponse 400 (SbMessage "Missing required field: sourceSheetId"))
      else
        let sourceSheetId := default "" (sr_sourceSheetId req) in
        try_catch
          (copiedSheetData ← copySheet accessToken sourceSheetId (sr_newSheetName req);
           mret (mkSheetResponse 201 (SbCopied "Sheet copied successfully!" copiedSheetData)))
          (λ error,
           mret (mkSheetResponse 500 (SbMessageError "Failed to copy the Google Sheet." error)))
  end.

(** [sendToN8nController(req, res)]. *)
Definition sendToN8nController (req : sheetRequest) : M sheetResponse :=
  match accessToken_of (sr_user req) with
  | None =>
      mret (mkSheetResponse 401 (SbMessage "Authentication required or access token missing."))
  | Some _ =>
      if negb (truthy_str (sr_spreadsheetId req)) then
        mret (mkSheetResponse 400 (SbMessage "Missing required field: spreadsheetId"))
      else if negb (truthy_str (sr_n8nWebhookUrl req)) then
        mret (mkSheetResponse 400 (SbMessage "Missing required field: n8nWebhookUrl"))
      else
        try_catch
          (result ← sendToN8n_metadata (default "" (sr_spreadsheetId req))
                      (default "" (sr_n8nWebhookUrl req)) (sr_metadata req);
           mret (mkSheetResponse 200
                   (SbSent "Spreadsheet ID successfully sent to n8n workflow!" result)))
          (λ error,
           mret (mkSheetResponse 500
                   (SbMessageError "Failed to send spreadsheet ID to n8n workflow." error)))
  end.

(** ** routes/apiRoutes: the upload pipeline *)

(** The [fileFilter] of the multer configuration: [cb(null, true)] or
    [cb(new Error(...), false)]. *)
Definition fileFilter (file : uploadedFile) : res bool :=
  if String.eqb (mimetype file) "application/vnd.ms-excel"
     || String.eqb (mimetype file)
          "application/vnd.openxmlformats-officedocument.spreadsheetml.sheet"
     || String.eqb (mimetype file) "text/csv"
  then Ok true
  else Throw "Only spreadsheet files (.xls, .xlsx, .csv) are allowed.".

(** An error handed to [next(err)]: a [multer.MulterError] or another
    [Error], each with its message. *)
Inductive uploadError : Type :=
  | MulterError (message : string)
  | OtherError (message : string).

(** [handleMulterError(err, req, res, next)]. *)
Definition handleMulterError (err : option uploadError) : middleware_result :=
  match err with
  | Some (MulterError message) =>
      Respond (mkResponse 400 (BMessage ("File upload error: " +:+ message)))
  | Some (OtherError message) => Respond (mkResponse 400 (BMessage message))
  | None => Next
  end.

(** [upload.single('spreadsheet')] on the file part named [spreadsheet], if
    the request has one.  multer asks [fileFilter] when the part starts and
    hands its error on; [limitError] is the [MulterError] multer raises while
    reading the part when it exceeds the [fileSize] limit of the
    configuration.  An accepted file becomes [req.file]. *)
Definition upload_single (part : option uploadedFile) (limitError : option string)
    : uploadError + option uploadedFile :=
  match part with
  | None => inr None
  | Some file =>
      match fileFilter file with
      | Throw message => inl (OtherError message)
      | Ok _ =>
          match limitError with
          | Some message => inl (MulterError message)
          | None => inr (Some file)
          end
      end
  end.

Definition set_file (req : apiRequest) (file : option uploadedFile) : apiRequest :=
  {| isAuthenticated := isAuthenticated req; req_user := req_user req;
     req_file := file; body_fileName := body_fileName req |}.

(** [router.post('/sheets/upload', ensureAuthenticated,
    upload.single('spreadsheet'), handleMulterError,
    uploadSpreadsheetController)]. *)
Definition upload_route (req : apiRequest) (part : option uploadedFile)
    (limitError : option string) : M httpResponse :=
  route ensureAuthenticated
    (λ req,
       match upload_single part limitError with
       | inl err =>
           match handleMulterError (Some err) with
           | Respond r => mret r
           | Next => uploadSpreadsheetController req
           end
       | inr file => uploadSpreadsheetController (set_file req file)
       end) req.

(** ** Worlds where one service fails *)

Definition with_drive_files_get (w : world)
    (answer : string → string → string → res fileResource) : world :=
  {| env_WEBHOOK_TOKEN := env_WEBHOOK_TOKEN w;
     env_N8N_WEBHOOK_URL := env_N8N_WEBHOOK_URL w;
     now_ISO := now_ISO w;
     drive_files_get := answer;
     drive_files_copy := drive_files_copy w;
     drive_files_create := drive_files_create w;
     drive_permissions_create := drive_permissions_create w;
     sheets_values_get := sheets_values_get w;
     oauth_getAccessToken := oauth_getAccessToken w;
     http_get := http_get w |}.

Definition with_drive_files_create (w : world)
    (answer : string → string → uploadedFile → res fileResource) : world :=
  {| env_WEBHOOK_TOKEN := env_WEBHOOK_TOKEN w;
     env_N8N_WEBHOOK_URL := env_N8N_WEBHOOK_URL w;
     now_ISO := now_ISO w;
     drive_files_get := drive_files_get w;
     drive_files_copy := drive_files_copy w;
     drive_files_create := answer;
     drive_permissions_create := drive_permissions_create w;
     sheets_values_get := sheets_values_get w;
     oauth_getAccessToken := oauth_getAccessToken w;
     http_get := http_get w |}.

Definition with_drive_files_copy (w : world)
    (answer : string → string → string → res fileResource) : world :=
  {| env_WEBHOOK_TOKEN := env_WEBHOOK_TOKEN w;
     env_N8N_WEBHOOK_URL := env_N8N_WEBHOOK_URL w;
     now_ISO := now_ISO w;
     drive_files_get := drive_files_get w;
     drive_files_copy := answer;
     drive_files_create := drive_files_create w;
     drive_permissions_create := drive_permissions_create w;
     sheets_values_get := sheets_values_get w;
     oauth_getAccessToken := oauth_getAccessToken w;
     http_get := http_get w |}.

Definition with_sheets (w : world) (oauth : res (option string))
    (answer : res (option (list (list jsval)))) : world :=
  {| env_WEBHOOK_TOKEN := env_WEBHOOK_TOKEN w;
     env_N8N_WEBHOOK_URL := env_N8N_WEBHOOK_URL w;
     now_ISO := now_ISO w;
     drive_files_get := drive_files_get w;
     drive_files_copy := drive_files_copy w;
     drive_files_create := drive_files_create w;
     drive_permissions_create := drive_permissions_create w;
     sheets_values_get := λ _ _ _, answer;
     oauth_getAccessToken := oauth;
     http_get := http_get w |}.

Definition calm_world : world :=
  sample_world (Some [[VStr "sku"; VStr "qty"]; [VStr "A-1"; VNum "4"; VStr "extra"];
                      [VStr "B-2"]])
    (Ok anyone_writer) (Response 200 "{}").

Definition pdf_upload : uploadedFile := mkUploadedFile "report.pdf" "application/pdf" [].

Definition sample_sheetRequest (token : option string) (sourceSheetId : option string)
    (metadata : metadataArg) : sheetRequest :=
  mkSheetRequest (Some (sample_user token)) sourceSheetId None (Some "sheet-1")
    (Some "http://localhost:5678/webhook/x") metadata.

(** * Verified properties *)

Ltac unfold_M :=
  unfold mbind, M_bind, mret, M_ret, try_catch, remote, ask, throw in *.

(** ** The monad: what [try_catch] and a remote call do *)

Lemma remote_run {A} (ev : event) (answer : world → res A) (w : world) :
  remote ev answer w = (answer w, [ev]).
Proof. reflexivity. Qed.

Lemma try_catch_ok {A} (body : M A) handler w a t :
  body w = (Ok a, t) → try_catch body handler w = (Ok a, t).
Proof. intros H. unfold try_catch. by rewrite H. Qed.

Lemma try_catch_throw {A} (body : M A) handler w e t :
  body w = (Throw e, t) →
  try_catch body handler w = (fst (handler e w), t ++ snd (handler e w)).
Proof. intros H. unfold try_catch. rewrite H. by destruct (handler e w). Qed.

(** ** verifyPublicAccess *)

Lemma verifyPublicAccess_run (fileId : string) (w : world) :
  verifyPublicAccess fileId w =
    (Ok (match http_get w (Some 0) (sheet_url fileId) with
         | Response status _ => status <? 400
         | NetworkError _ => false
         end),
     [AxiosGet (sheet_url fileId) (Some 0)]).
Proof.
  unfold verifyPublicAccess, axios_get. unfold_M.
  destruct (http_get w (Some 0) (sheet_url fileId)) as [st data|msg]; simpl.
  - destruct (st <? 400); simpl; [|done].
    by destruct (st =? 200).
  - done.
Qed.

(** ** makeFilePublic *)

(** The permission-setting call succeeds exactly when [permissions.create]
    and the following [files.get] both answer; the pre-check and the
    reachability verification have no say. *)
Lemma makeFilePublic_run (tok fileId : string) (w : world) :
  makeFilePublic tok fileId w =
    match drive_permissions_create w tok fileId with
    | Throw e =>
        (Throw (makeFilePublic_error fileId e),
         [DriveFilesGet fileId check_fields;
          DrivePermissionsCreate fileId "writer" "anyone" false])
    | Ok p =>
        match drive_files_get w tok fileId info_fields with
        | Throw e =>
            (Throw (makeFilePublic_error fileId e),
             [DriveFilesGet fileId check_fields;
              DrivePermissionsCreate fileId "writer" "anyone" false;
              DriveFilesGet fileId info_fields])
        | Ok fileInfo =>
            (Ok {| permissionId := perm_id p; permissionType := perm_type p;
                   permissionRole := perm_role p;
                   pp_webViewLink := fr_webViewLink fileInfo;
                   pp_webContentLink := or_null (fr_webContentLink fileInfo);
                   pp_publicUrl := sheet_url fileId;
                   pp_permissions := fr_permissions fileInfo |},
             [DriveFilesGet fileId check_fields;
              DrivePermissionsCreate fileId "writer" "anyone" false;
              DriveFilesGet fileId info_fields;
              AxiosGet (sheet_url fileId) (Some 0)])
        end
    end.
Proof.
  unfold makeFilePublic. unfold_M.
  rewrite verifyPublicAccess_run.
  destruct (drive_files_get w tok fileId check_fields);
    destruct (drive_permissions_create w tok fileId); simpl; try done;
    destruct (drive_files_get w tok fileId info_fields); simpl; done.
Qed.

Lemma makeFilePublic_http_irrelevant tok fileId w net :
  makeFilePublic tok fileId (with_http w net) = makeFilePublic tok fileId w.
Proof. by rewrite !makeFilePublic_run. Qed.

(** ** uploadSpreadsheet *)

Lemma uploadSpreadsheet_run tok file fileName (w : world) :
  uploadSpreadsheet tok file fileName true w =
    let name := or_str fileName (originalname file) in
    let create := DriveFilesCreate name "application/vnd.google-apps.spreadsheet"
                    (mimetype file) in
    match drive_files_create w tok name file with
    | Throw e => (Throw ("Failed to upload spreadsheet. Reason: " +:+ e), [create])
    | Ok created =>
        let data := created_data created in
        match makeFilePublic tok (fr_id created) w with
        | (Ok pp, t) =>
            (Ok {| sd_id := sd_id data; sd_name := sd_name data;
                   sd_webViewLink := pp_webViewLink pp;
                   sd_permissions := sd_permissions data;
                   sd_publicUrl := Some (pp_publicUrl pp);
                   sd_isPublic := Some true;
                   sd_publicPermissions := Some pp;
                   sd_publicPermissionError := None |}, create :: t)
        | (Throw e, t) =>
            (Ok {| sd_id := sd_id data; sd_name := sd_name data;
                   sd_webViewLink := sd_webViewLink data;
                   sd_permissions := sd_permissions data;
                   sd_publicUrl := None;
                   sd_isPublic := Some false;
                   sd_publicPermissions := None;
                   sd_publicPermissionError := Some e |}, create :: t)
        end
    end.
Proof.
  unfold uploadSpreadsheet. unfold_M. simpl.
  destruct (drive_files_create w tok _ file) as [created|e]; simpl; [|done].
  destruct (makeFilePublic tok (fr_id created) w) as [[pp|e] t]; simpl;
    by rewrite app_nil_r.
Qed.

Lemma uploadSpreadsheet_http_irrelevant tok file fileName makePublic w net :
  uploadSpreadsheet tok file fileName makePublic (with_http w net)
  = uploadSpreadsheet tok file fileName makePublic w.
Proof.
  destruct makePublic.
  - rewrite !uploadSpreadsheet_run. simpl.
    destruct (drive_files_create w tok _ file); [|done].
    by rewrite makeFilePublic_http_irrelevant.
  - reflexivity.
Qed.

(** Once the file is created the upload returns a descriptor, whatever
    happens afterwards. *)
Lemma uploadSpreadsheet_created tok file fileName makePublic w created :
  drive_files_create w tok (or_str fileName (originalname file)) file = Ok created →
  ∃ d t, uploadSpreadsheet tok file fileName makePublic w = (Ok d, t)
         ∧ sd_id d = fr_id created.
Proof.
  intros Hc. destruct makePublic.
  - rewrite uploadSpreadsheet_run. simpl. rewrite Hc.
    destruct (makeFilePublic tok (fr_id created) w) as [[pp|e] t]; eauto.
  - unfold uploadSpreadsheet. unfold_M. simpl. rewrite Hc. simpl. eauto.
Qed.

(** C1. In every run of the upload flow that reaches stage 2 (the file was
    created and publication is requested) the flow returns a descriptor whose
    [isPublic] is [true] exactly when the permission-setting call
    [makeFilePublic] succeeded; when that call failed [isPublic] is [false]
    and the descriptor carries the error message of the call.  What the
    reachability verification meets changes neither. *)
Theorem upload_isPublic_reflects_permission_call
    tok file fileName (w : world) created :
  drive_files_create w tok (or_str fileName (originalname file)) file = Ok created →
  ∃ d t,
    uploadSpreadsheet tok file fileName true w = (Ok d, t)
    ∧ (sd_isPublic d = Some true
       ↔ ∃ pp t', makeFilePublic tok (fr_id created) w = (Ok pp, t'))
    ∧ (∀ e t', makeFilePublic tok (fr_id created) w = (Throw e, t') →
         sd_isPublic d = Some false ∧ sd_publicPermissionError d = Some e)
    ∧ (∀ net, uploadSpreadsheet tok file fileName true (with_http w net) = (Ok d, t)).
Proof.
  intros Hc.
  pose proof (uploadSpreadsheet_run tok file fileName w) as Hrun.
  simpl in Hrun. rewrite Hc in Hrun.
  destruct (makeFilePublic tok (fr_id created) w) as [[pp|e] t] eqn:Hmk;
    eexists _, _; (split; [exact Hrun|]); simpl.
  - split; [split; eauto|].
    split; [intros ?? [=]|].
    intros net. by rewrite uploadSpreadsheet_http_irrelevant.
  - split; [split; [intros [=]|intros (?&?&[=])]|].
    split; [by intros ?? [= -> ->]|].
    intros net. by rewrite uploadSpreadsheet_http_irrelevant.
Qed.

Lemma upload_isPublic_reflects_permission_call_witness :
  ∃ d t,
    uploadSpreadsheet "tok" stock_upload None true
      (sample_world None (Throw "insufficient permissions") (NetworkError "timeout"))
      = (Ok d, t)
    ∧ sd_isPublic d = Some false
    ∧ sd_publicPermissionError d
      = Some "Failed to make file public (ID: new-1). Reason: insufficient permissions".
Proof.
  destruct (upload_isPublic_reflects_permission_call "tok" stock_upload None
              (sample_world None (Throw "insufficient permissions") (NetworkError "timeout"))
              (mkFileResource "new-1" "stock.csv" None None []) eq_refl)
    as (d & t & Hrun & _ & Hfail & _).
  exists d, t. split; [exact Hrun|].
  eapply Hfail. vm_compute. reflexivity.
Defined.

(** C7. The reachability verification never raises: it issues one GET that
    does not follow redirects and returns a boolean, [true] for any response
    with status below 400 (redirects included) and [false] when no response
    arrives.  Consequently what the verification meets has no influence on
    the upload flow, which returns a descriptor whenever the file was
    created. *)
Theorem verifyPublicAccess_never_raises (fileId : string) (w : world) :
  ∃ b,
    verifyPublicAccess fileId w = (Ok b, [AxiosGet (sheet_url fileId) (Some 0)])
    ∧ (∀ st data, http_get w (Some 0) (sheet_url fileId) = Response st data →
         st < 400 → b = true)
    ∧ (∀ msg, http_get w (Some 0) (sheet_url fileId) = NetworkError msg → b = false)
    ∧ (∀ tok file fileName makePublic net,
         uploadSpreadsheet tok file fileName makePublic (with_http w net)
         = uploadSpreadsheet tok file fileName makePublic w)
    ∧ (∀ tok file fileName makePublic net created,
         drive_files_create w tok (or_str fileName (originalname file)) file = Ok created →
         ∃ d t, uploadSpreadsheet tok file fileName makePublic (with_http w net) = (Ok d, t)).
Proof.
  eexists. split; [apply verifyPublicAccess_run|].
  split; [|split; [|split]].
  - intros st data -> Hlt. by apply Z.ltb_lt.
  - by intros msg ->.
  - intros. apply uploadSpreadsheet_http_irrelevant.
  - intros tok file fileName makePublic net created Hc.
    rewrite uploadSpreadsheet_http_irrelevant.
    destruct (uploadSpreadsheet_created tok file fileName makePublic w created Hc)
      as (d & t & Hrun & _).
    eauto.
Qed.

Lemma verifyPublicAccess_never_raises_witness :
  verifyPublicAccess "new-1" (sample_world None (Ok anyone_writer) (Response 302 ""))
    = (Ok true, [AxiosGet (sheet_url "new-1") (Some 0)])
  ∧ verifyPublicAccess "new-1" (sample_world None (Ok anyone_writer) (NetworkError "ECONNRESET"))
    = (Ok false, [AxiosGet (sheet_url "new-1") (Some 0)]).
Proof.
  split.
  - destruct (verifyPublicAccess_never_raises "new-1"
                (sample_world None (Ok anyone_writer) (Response 302 "")))
      as (b & Hrun & Hresp & _).
    rewrite Hrun. f_equal. f_equal. apply (Hresp 302 ""); [reflexivity | lia].
  - destruct (verifyPublicAccess_never_raises "new-1"
                (sample_world None (Ok anyone_writer) (NetworkError "ECONNRESET")))
      as (b & Hrun & _ & Hnet & _).
    rewrite Hrun. f_equal. f_equal. apply (Hnet "ECONNRESET"). reflexivity.
Defined.

(** ** ensureAuthenticated *)

(** C9. On a protected route a session that is authenticated but has no
    access token on its user record, and a session that is not
    authenticated, are both answered by the middleware with status 401,
    without running the handler (whatever the handler is, the route's answer
    and its empty trace are the middleware's), and with different bodies: the
    token-missing message and the unauthorized message. *)
Theorem ensureAuthenticated_distinct_rejections
    (handler : apiRequest → M httpResponse) (req : apiRequest) (w : world) :
  (isAuthenticated req = true → user_accessToken req = None →
     route ensureAuthenticated handler req w
     = (Ok (mkResponse 401 (BMessage "Access token missing in session.")), []))
  ∧ (isAuthenticated req = false →
     route ensureAuthenticated handler req w
     = (Ok (mkResponse 401 (BMessage "Unauthorized. Please log in.")), []))
  ∧ BMessage "Access token missing in session." ≠ BMessage "Unauthorized. Please log in.".
Proof.
  unfold route, ensureAuthenticated.
  split; [|split].
  - by intros -> ->.
  - by intros ->.
  - discriminate.
Qed.

Lemma ensureAuthenticated_distinct_rejections_witness :
  route ensureAuthenticated uploadSpreadsheetController (sample_request true None)
    (sample_world None (Ok anyone_writer) (Response 200 ""))
  = (Ok (mkResponse 401 (BMessage "Access token missing in session.")), [])
  ∧ route ensureAuthenticated uploadSpreadsheetController (sample_request false (Some "tok"))
      (sample_world None (Ok anyone_writer) (Response 200 ""))
    = (Ok (mkResponse 401 (BMessage "Unauthorized. Please log in.")), []).
Proof.
  split.
  - apply (ensureAuthenticated_distinct_rejections uploadSpreadsheetController
             (sample_request true None)); reflexivity.
  - apply (ensureAuthenticated_distinct_rejections uploadSpreadsheetController
             (sample_request false (Some "tok"))); reflexivity.
Defined.

(** A user record without token, or with an empty one, counts as lacking
    the token; a record with a token passes. *)
Lemma user_accessToken_missing req u :
  req_user req = Some u → accessToken u = None → user_accessToken req = None.
Proof. unfold user_accessToken. by intros -> ->. Qed.

Lemma ensureAuthenticated_passes req u tok :
  isAuthenticated req = true → req_user req = Some u → accessToken u = Some tok →
  tok ≠ "" → ensureAuthenticated req = Next.
Proof.
  unfold ensureAuthenticated, user_accessToken, or_null, truthy_str.
  intros -> -> -> Hne.
  destruct (String.eqb_spec tok ""); [done|]. reflexivity.
Qed.

(** ** getSheetDataWebhook *)

(** C4. A request to the sheet webhook whose [webhookToken] is missing or
    differs from the configured token is answered 401 with body
    [{error: "Invalid webhook token"}], and no remote call is issued. *)
Theorem webhook_invalid_token_rejected (query : webhookQuery) (w : world) :
  q_webhookToken query = None ∨ q_webhookToken query ≠ env_WEBHOOK_TOKEN w →
  getSheetDataWebhook query w
  = (Ok (mkResponse 401 (BError "Invalid webhook token")), []).
Proof.
  intros H. unfold getSheetDataWebhook. unfold_M. simpl.
  destruct H as [-> | Hne]; [reflexivity|].
  rewrite (bool_decide_eq_false_2 _ Hne), orb_true_r. reflexivity.
Qed.

Lemma webhook_invalid_token_rejected_witness :
  getSheetDataWebhook (sample_query (Some "wrong"))
    (sample_world (Some [[VStr "sku"]]) (Ok anyone_writer) (Response 200 ""))
  = (Ok (mkResponse 401 (BError "Invalid webhook token")), []).
Proof.
  apply webhook_invalid_token_rejected. right. discriminate.
Defined.

Lemma readSheet_run accessToken spreadsheetId range (w : world) :
  readSheet accessToken spreadsheetId range w =
    (match sheets_values_get w accessToken spreadsheetId range with
     | Ok values => Ok (default [] values)
     | Throw e => Throw ("Failed to read Google Sheet (ID: " +:+ spreadsheetId
                           +:+ "). Reason: " +:+ e)
     end,
     [SheetsValuesGet spreadsheetId range]).
Proof.
  unfold readSheet. unfold_M.
  by destruct (sheets_values_get w accessToken spreadsheetId range).
Qed.

(** The handler past its two guards, when the token exchange answers. *)
Lemma webhook_accepted_run (query : webhookQuery) (w : world) tok id accessToken :
  q_webhookToken query = Some tok → tok ≠ "" → env_WEBHOOK_TOKEN w = Some tok →
  q_spreadsheetId query = Some id → id ≠ "" →
  oauth_getAccessToken w = Ok accessToken →
  getSheetDataWebhook query w =
    let range := or_str (q_range query) "Sheet1" in
    (match sheets_values_get w accessToken id range with
     | Ok values =>
         let sheetData := default [] values in
         if (length sheetData <? 1)%nat then Ok (mkResponse 200 (BData []))
         else
           let rows := map (row_to_obj (default [] (head sheetData))) (drop 1 sheetData) in
           Ok (mkResponse 200 (BSheet id range (length rows) rows))
     | Throw e =>
         Ok (mkResponse 500
               (BErrorMessage "Failed to read Google Sheet"
                  ("Failed to read Google Sheet (ID: " +:+ id +:+ "). Reason: " +:+ e)))
     end,
     [OAuthGetAccessToken; SheetsValuesGet id range]).
Proof.
  intros Htok Hne Henv Hid Hidne Hoauth.
  unfold getSheetDataWebhook. unfold_M. simpl.
  rewrite Htok, Henv, Hid. simpl.
  rewrite bool_decide_eq_true_2 by done.
  destruct (String.eqb_spec tok ""); [done|].
  destruct (String.eqb_spec id ""); [done|]. simpl.
  rewrite Hoauth, readSheet_run.
  destruct (sheets_values_get w accessToken id _) as [values|e]; simpl; [|done].
  by destruct (length (default [] values) <? 1)%nat.
Qed.

(** C3, as amended.  On a sheet with zero data rows, a call that passes the
    token and parameter checks and whose token exchange and read succeed is
    answered 200 with [data: []] and no error field.  When the sheet has a
    header row the body is [{sheetId, range, rowCount: 0, data: []}]; when
    the sheet has no rows at all the body is [{data: []}] alone. *)
Theorem webhook_zero_data_rows (query : webhookQuery) (w : world)
    tok id accessToken values :
  q_webhookToken query = Some tok → tok ≠ "" → env_WEBHOOK_TOKEN w = Some tok →
  q_spreadsheetId query = Some id → id ≠ "" →
  oauth_getAccessToken w = Ok accessToken →
  sheets_values_get w accessToken id (or_str (q_range query) "Sheet1") = Ok values →
  (length (default [] values) ≤ 1)%nat →
  ∃ r,
    getSheetDataWebhook query w
      = (Ok r, [OAuthGetAccessToken;
                SheetsValuesGet id (or_str (q_range query) "Sheet1")])
    ∧ status r = 200
    ∧ body_data (resp_body r) = Some []
    ∧ body_error (resp_body r) = None
    ∧ (length (default [] values) = 1%nat →
         resp_body r = BSheet id (or_str (q_range query) "Sheet1") 0 [])
    ∧ (length (default [] values) = 0%nat → resp_body r = BData []).
Proof.
  intros Htok Hne Henv Hid Hidne Hoauth Hread Hlen.
  rewrite (webhook_accepted_run query w tok id accessToken) by done.
  simpl. rewrite Hread.
  destruct (default [] values) as [|headers [|row rest]]; simpl in *.
  - eexists. split; [reflexivity|]. repeat split; done.
  - eexists. split; [reflexivity|]. repeat split; done.
  - lia.
Qed.

Lemma webhook_zero_data_rows_witness :
  ∃ r,
    getSheetDataWebhook (sample_query (Some "s3cret"))
      (sample_world (Some [[VStr "sku"; VStr "qty"]]) (Ok anyone_writer) (Response 200 ""))
      = (Ok r, [OAuthGetAccessToken; SheetsValuesGet "sheet-1" "Sheet1"])
    ∧ status r = 200
    ∧ resp_body r = BSheet "sheet-1" "Sheet1" 0 [].
Proof.
  destruct (webhook_zero_data_rows (sample_query (Some "s3cret"))
              (sample_world (Some [[VStr "sku"; VStr "qty"]]) (Ok anyone_writer)
                 (Response 200 ""))
              "s3cret" "sheet-1" (Some "service-token") (Some [[VStr "sku"; VStr "qty"]]))
    as (r & Hrun & Hst & _ & _ & Hhdr & _);
    [reflexivity | discriminate | reflexivity | reflexivity | discriminate
    | reflexivity | reflexivity | simpl; lia |].
  exists r. split; [exact Hrun|]. split; [exact Hst|]. apply Hhdr. reflexivity.
Defined.

(** C3 as stated fails on a sheet without any row: the answer is 200 with
    body [{data: []}], which has no [rowCount]. *)
Lemma webhook_empty_sheet_has_no_rowCount :
  getSheetDataWebhook (sample_query (Some "s3cret"))
    (sample_world None (Ok anyone_writer) (Response 200 ""))
  = (Ok (mkResponse 200 (BData [])),
     [OAuthGetAccessToken; SheetsValuesGet "sheet-1" "Sheet1"])
  ∧ ¬ (∃ r t,
         getSheetDataWebhook (sample_query (Some "s3cret"))
           (sample_world None (Ok anyone_writer) (Response 200 "")) = (Ok r, t)
         ∧ body_rowCount (resp_body r) = Some 0%nat).
Proof.
  split; [reflexivity|].
  intros (r & t & Hrun & Hcount).
  vm_compute in Hrun. injection Hrun as <- _. discriminate.
Qed.

(** ** sendToN8n *)

Lemma sendToN8n_run spreadsheetId n8nWebhookUrl metadata (w : world) :
  sendToN8n spreadsheetId n8nWebhookUrl metadata w =
    match metadata_params metadata with
    | Throw e => (Throw ("Failed to send data to n8n: " +:+ e), [])
    | Ok appended =>
        let fullUrl := n8n_url n8nWebhookUrl
                         (n8n_params spreadsheetId (now_ISO w) appended) in
        (match http_get w None fullUrl with
         | Response st data =>
             if default_validateStatus st then Ok data
             else Throw ("Failed to send data to n8n: "
                           +:+ "Request failed with status code " +:+ pretty st)
         | NetworkError msg => Throw ("Failed to send data to n8n: " +:+ msg)
         end,
         [AxiosGet fullUrl None])
    end.
Proof.
  unfold sendToN8n, axios_get, of_res. unfold_M. simpl.
  destruct (metadata_params metadata) as [appended|e]; simpl; [|done].
  destruct (http_get w None _) as [st data|msg]; simpl; [|done].
  by destruct (default_validateStatus st).
Qed.

(** When every value that is neither null nor undefined converts to a
    text, the loop appends the entries of the reference definition. *)
Lemma metadata_params_spec (metadata : list (string * metaval)) :
  (∀ k v, (k, v) ∈ metadata → present v = true → is_Some (to_text v)) →
  metadata_params metadata = Ok (spec_metadata_params metadata).
Proof.
  unfold spec_metadata_params.
  induction metadata as [|[key value] rest IH]; intros Hconv; [done|].
  rewrite filter_cons. cbn [metadata_params].
  assert (metadata_params rest
          = Ok (map (λ kv, (fst kv, default "" (to_text (snd kv))))
                  (filter (λ kv, present (snd kv) = true) rest))) as Hrest.
  { apply IH. intros k v Hin. apply (Hconv k). by right. }
  rewrite Hrest.
  destruct (present value) eqn:Hp; simpl.
  - destruct (Hconv key value) as [text Htext]; [by left | done |].
    case_decide; [|congruence]. simpl. by rewrite Htext.
  - case_decide; [congruence | done].
Qed.

(** A value that does not convert makes the loop fail. *)
Lemma metadata_params_throws (metadata : list (string * metaval)) k v :
  (k, v) ∈ metadata → present v = true → to_text v = None →
  ∃ e, metadata_params metadata = Throw e.
Proof.
  induction metadata as [|[key value] rest IH]; intros Hin Hp Hnone.
  - by apply elem_of_nil in Hin.
  - cbn [metadata_params]. apply elem_of_cons in Hin as [[= <- <-] | Hin].
    + rewrite Hp, Hnone. eauto.
    + destruct (IH Hin Hp Hnone) as [e He]. rewrite He.
      destruct (present value); [|eauto].
      destruct (to_text value); eauto.
Qed.

Lemma includes_question_mark (s : string) :
  includes s "?" = contains_char "?" s.
Proof.
  unfold includes.
  induction s as [|c rest IH]; [done|].
  cbn [String.index contains_char].
  change (String.prefix "?" (String c rest))
    with (match ascii_dec "?" c with
          | left _ => String.prefix "" rest
          | right _ => false
          end).
  destruct (ascii_dec "?" c) as [<-|Hne].
  - rewrite Ascii.eqb_refl. destruct rest; reflexivity.
  - destruct (Ascii.eqb_spec "?"%char c) as [Heq|_]; [done|].
    rewrite <- IH.
    by destruct (String.index 0 "?" rest).
Qed.

Example form_encode_sample :
  URLSearchParams_toString [("uploadedBy", "ada@example.org"); ("note", "50% off & more")]
  = "uploadedBy=ada%40example.org&note=50%25+off+%26+more".
Proof. reflexivity. Qed.

(** C6, as amended.  A call to the forwarder with a metadata map in which
    every value that is neither null nor undefined converts to a text issues
    exactly one request, a GET of the callback URL extended by the query
    string (joined by [&] when the callback URL contains [?], by [?]
    otherwise) of the identifier, the timestamp, the fixed source tag and, in
    order, every metadata entry whose value is neither null nor undefined.
    There is no second attempt: when the request meets no response, or a
    status outside 2xx, the call fails with the transport's message; a 2xx
    response's body is the result. *)
Theorem sendToN8n_single_get spreadsheetId n8nWebhookUrl metadata (w : world) :
  (∀ k v, (k, v) ∈ metadata → present v = true → is_Some (to_text v)) →
  let params := [("spreadsheetId", spreadsheetId); ("timestamp", now_ISO w);
                 ("source", "RetailSyncSaaS")] ++ spec_metadata_params metadata in
  let fullUrl := n8nWebhookUrl
                   +:+ (if contains_char "?" n8nWebhookUrl then "&" else "?")
                   +:+ URLSearchParams_toString params in
  snd (sendToN8n spreadsheetId n8nWebhookUrl metadata w) = [AxiosGet fullUrl None]
  ∧ (∀ msg, http_get w None fullUrl = NetworkError msg →
       fst (sendToN8n spreadsheetId n8nWebhookUrl metadata w)
       = Throw ("Failed to send data to n8n: " +:+ msg))
  ∧ (∀ st data, http_get w None fullUrl = Response st data → ¬ (200 ≤ st < 300) →
       fst (sendToN8n spreadsheetId n8nWebhookUrl metadata w)
       = Throw ("Failed to send data to n8n: "
                  +:+ "Request failed with status code " +:+ pretty st))
  ∧ (∀ st data, http_get w None fullUrl = Response st data → 200 ≤ st < 300 →
       fst (sendToN8n spreadsheetId n8nWebhookUrl metadata w) = Ok data).
Proof.
  intros Hconv params fullUrl.
  rewrite sendToN8n_run, (metadata_params_spec metadata Hconv). simpl.
  assert (n8n_url n8nWebhookUrl
            (n8n_params spreadsheetId (now_ISO w) (spec_metadata_params metadata))
          = fullUrl) as ->.
  { unfold n8n_url, n8n_params, fullUrl, params.
    by rewrite includes_question_mark. }
  split; [done|]. split; [|split].
  - by intros msg ->.
  - intros st data -> Hout. unfold default_validateStatus.
    destruct (200 <=? st) eqn:H1; destruct (st <? 300) eqn:H2; simpl; try done.
    apply Z.leb_le in H1. apply Z.ltb_lt in H2. lia.
  - intros st data -> [H1 H2]. unfold default_validateStatus.
    apply Z.leb_le in H1. apply Z.ltb_lt in H2. by rewrite H1, H2.
Qed.

Lemma sendToN8n_single_get_witness :
  sendToN8n "sheet-1" "http://localhost:5678/webhook/x?mode=test"
    [("notes", MVal (VStr "a b")); ("skip", MVal VNull); ("rows", MVal (VNum "1e+21"));
     ("tags", MArr [MVal (VStr "new"); MVal VNull; MObj []]); ("gone", MVal VUndef)]
    (sample_world None (Ok anyone_writer) (NetworkError "ECONNREFUSED"))
  = (Throw "Failed to send data to n8n: ECONNREFUSED",
     [AxiosGet
        "http://localhost:5678/webhook/x?mode=test&spreadsheetId=sheet-1&timestamp=2024-05-01T10%3A00%3A00.000Z&source=RetailSyncSaaS&notes=a+b&rows=1e%2B21&tags=new%2C%2C%5Bobject+Object%5D"
        None]).
Proof.
  assert (∀ k v,
            (k, v) ∈ [("notes", MVal (VStr "a b")); ("skip", MVal VNull);
                      ("rows", MVal (VNum "1e+21"));
                      ("tags", MArr [MVal (VStr "new"); MVal VNull; MObj []]);
                      ("gone", MVal VUndef)] →
            present v = true → is_Some (to_text v)) as Hconv.
  { intros k v Hin Hp.
    repeat (apply elem_of_cons in Hin as [[= -> ->] | Hin]; [by eexists|]).
    by apply elem_of_nil in Hin. }
  pose proof (sendToN8n_single_get "sheet-1" "http://localhost:5678/webhook/x?mode=test"
                _ (sample_world None (Ok anyone_writer) (NetworkError "ECONNREFUSED"))
                Hconv) as (Htrace & Hnet & _).
  specialize (Hnet "ECONNREFUSED" eq_refl).
  destruct (sendToN8n _ _ _ _) as [r t]. simpl in Htrace, Hnet.
  rewrite Htrace, Hnet. vm_compute. reflexivity.
Defined.

(** C6 as stated fails on a metadata map that holds an object with an own
    [toString] property: converting that value raises an error, no request
    is issued and the call fails. *)
Lemma sendToN8n_unconvertible_value_no_request :
  sendToN8n "sheet-1" "http://localhost:5678/webhook/x"
    [("filter", MObj [("toString", MVal (VStr "x"))])]
    (sample_world None (Ok anyone_writer) (Response 200 "{}"))
  = (Throw "Failed to send data to n8n: value.toString is not a function", [])
  ∧ present (MObj [("toString", MVal (VStr "x"))]) = true.
Proof. split; reflexivity. Qed.

(** ** uploadSpreadsheetController *)

(** C2. When the file was created and the forward call fails, the upload
    endpoint still answers 201, with the uploaded file's descriptor and an
    [n8nForwarding] object whose [success] is [false] and whose [error] is
    the forwarding error message. *)
Theorem upload_forward_failure_still_201 (req : apiRequest) (w : world)
    tok file created :
  user_accessToken req = Some tok → req_file req = Some file →
  drive_files_create w tok (or_str (body_fileName req) (originalname file)) file
    = Ok created →
  ∃ d t,
    uploadSpreadsheet tok file (body_fileName req) true w = (Ok d, t)
    ∧ ∀ e t',
        sendToN8n (sd_id d) (or_str (env_N8N_WEBHOOK_URL w) default_n8n_url)
          (upload_metadata d (or_str (sd_publicUrl d) (sheet_url (sd_id d)))
             (req_user req) file) w = (Throw e, t') →
        ∃ r,
          uploadSpreadsheetController req w = (Ok r, t ++ t')
          ∧ status r = 201
          ∧ body_spreadsheet (resp_body r) = Some d
          ∧ body_n8nForwarding (resp_body r)
            = Some (mkForwarding false (or_str (env_N8N_WEBHOOK_URL w) default_n8n_url)
                      None (Some e)).
Proof.
  intros Huser Hfile Hc.
  destruct (uploadSpreadsheet_created tok file (body_fileName req) true w created Hc)
    as (d & t & Hrun & _).
  exists d, t. split; [exact Hrun|].
  intros e t' Hsend.
  unfold uploadSpreadsheetController. rewrite Huser, Hfile.
  unfold_M. rewrite Hrun. simpl. rewrite Hsend. simpl.
  eexists. split; [by rewrite !app_nil_r|]. done.
Qed.

Lemma upload_forward_failure_still_201_witness :
  ∃ r t,
    uploadSpreadsheetController (sample_request true (Some "tok"))
      (sample_world None (Ok anyone_writer) (NetworkError "ECONNREFUSED")) = (Ok r, t)
    ∧ status r = 201
    ∧ body_n8nForwarding (resp_body r)
      = Some (mkForwarding false "http://localhost:5678/webhook/x?mode=test" None
                (Some "Failed to send data to n8n: ECONNREFUSED")).
Proof.
  destruct (upload_forward_failure_still_201 (sample_request true (Some "tok"))
              (sample_world None (Ok anyone_writer) (NetworkError "ECONNREFUSED"))
              "tok" stock_upload (mkFileResource "new-1" "stock.csv" None None [])
              eq_refl eq_refl eq_refl)
    as (d & t & Hrun & Hfwd).
  vm_compute in Hrun. injection Hrun as <- <-.
  destruct (Hfwd "Failed to send data to n8n: ECONNREFUSED" _ eq_refl)
    as (r & Hctl & Hst & _ & Hnf).
  exists r. eexists. split; [exact Hctl|]. split; [exact Hst|exact Hnf].
Defined.

(** ** copySheet *)

Lemma copySheet_run tok sourceSheetId newSheetName (w : world) :
  copySheet tok sourceSheetId newSheetName w =
    let originalName := match drive_files_get w tok sourceSheetId "name" with
                        | Ok fileMetadata => fr_name fileMetadata
                        | Throw _ => "Spreadsheet"
                        end in
    let name := or_str newSheetName ("Copy of " +:+ originalName) in
    (match drive_files_copy w tok sourceSheetId name with
     | Ok copy => Ok copy
     | Throw e => Throw ("Failed to copy Google Sheet (ID: " +:+ sourceSheetId
                           +:+ "). Reason: " +:+ e)
     end,
     [DriveFilesGet sourceSheetId "name"; DriveFilesCopy sourceSheetId name]).
Proof.
  unfold copySheet. unfold_M.
  destruct (drive_files_get w tok sourceSheetId "name") as [meta|e]; simpl;
    by destruct (drive_files_copy w tok sourceSheetId _).
Qed.

(** C8, as amended.  The duplication first fetches the source file's name and
    then issues the copy, also when the fetch fails (the name [Spreadsheet]
    then stands for the original name).  The copy is named [newName] when a
    non-empty [newName] is given, and "Copy of " + originalName when
    [newName] is absent or empty. *)
Theorem copySheet_name tok sourceSheetId newSheetName (w : world) :
  let originalName := match drive_files_get w tok sourceSheetId "name" with
                      | Ok fileMetadata => fr_name fileMetadata
                      | Throw _ => "Spreadsheet"
                      end in
  ∃ name,
    snd (copySheet tok sourceSheetId newSheetName w)
      = [DriveFilesGet sourceSheetId "name"; DriveFilesCopy sourceSheetId name]
    ∧ (∀ copy, drive_files_copy w tok sourceSheetId name = Ok copy →
         fst (copySheet tok sourceSheetId newSheetName w) = Ok copy)
    ∧ (∀ n, newSheetName = Some n → n ≠ "" → name = n)
    ∧ (newSheetName = None ∨ newSheetName = Some "" →
         name = "Copy of " +:+ originalName).
Proof.
  intros originalName. rewrite copySheet_run. simpl.
  eexists. split; [reflexivity|]. split; [|split].
  - by intros copy ->.
  - intros n -> Hne. simpl. by destruct (String.eqb_spec n "").
  - by intros [-> | ->].
Qed.

Lemma copySheet_name_witness :
  copySheet "tok" "src-1" (Some "Q3 budget")
    (sample_world None (Ok anyone_writer) (Response 200 ""))
  = (Ok (mkFileResource "copy-1" "Q3 budget" None None []),
     [DriveFilesGet "src-1" "name"; DriveFilesCopy "src-1" "Q3 budget"]).
Proof.
  destruct (copySheet_name "tok" "src-1" (Some "Q3 budget")
              (sample_world None (Ok anyone_writer) (Response 200 "")))
    as (name & Htrace & Hres & Hgiven & _).
  rewrite (Hgiven "Q3 budget" eq_refl) in Htrace, Hres by discriminate.
  specialize (Hres _ eq_refl).
  destruct (copySheet _ _ _ _) as [r t]. simpl in *. by subst.
Defined.

(** C8 as stated fails when the given [newName] is the empty string: the
    copy is then named after the original. *)
Lemma copySheet_empty_newName_ignored :
  copySheet "tok" "src-1" (Some "")
    (sample_world None (Ok anyone_writer) (Response 200 ""))
  = (Ok (mkFileResource "copy-1" "Copy of Budget" None None []),
     [DriveFilesGet "src-1" "name"; DriveFilesCopy "src-1" "Copy of Budget"])
  ∧ "Copy of Budget" ≠ "".
Proof. split; [reflexivity | discriminate]. Qed.

(** ** Rows to keyed records *)

Lemma array_get_beyond (row : list jsval) (i : nat) :
  (length row ≤ i)%nat → array_get row i = VUndef.
Proof. intros H. unfold array_get. by rewrite lookup_ge_None_2. Qed.

Lemma js_or_null_cases (v : jsval) :
  js_or v VNull = (if truthy v then v else VNull).
Proof. reflexivity. Qed.

Lemma obj_set_lookup_ne key value (o : obj) (k : string) :
  k ≠ key → obj_props (obj_set key value o) !! k = obj_props o !! k.
Proof.
  intros Hne. unfold obj_set.
  destruct (_ && _); [by destruct value|].
  simpl. by rewrite lookup_insert_ne.
Qed.

Lemma obj_set_lookup_eq key value (o : obj) :
  key ≠ "__proto__" → obj_props (obj_set key value o) !! key = Some value.
Proof.
  intros Hne. unfold obj_set.
  destruct (String.eqb_spec key "__proto__"); [done|].
  simpl. by rewrite lookup_insert_eq.
Qed.

Lemma obj_set_lookup_inv key value (o : obj) (k : string) (x : jsval) :
  obj_props (obj_set key value o) !! k = Some x →
  (k = key ∧ x = value) ∨ obj_props o !! k = Some x.
Proof.
  unfold obj_set. destruct (_ && _).
  - destruct value; simpl; auto.
  - simpl. destruct (decide (key = k)) as [->|Hne].
    + rewrite lookup_insert_eq. intros [= <-]. auto.
    + rewrite lookup_insert_ne by done. auto.
Qed.

Lemma obj_set_dom key value (o : obj) :
  key ≠ "__proto__" →
  dom (obj_props (obj_set key value o)) = {[key]} ∪ dom (obj_props o).
Proof.
  intros Hne. unfold obj_set.
  destruct (String.eqb_spec key "__proto__"); [done|].
  simpl. by rewrite dom_insert_L.
Qed.

Section ForEachHeader.
Variable row : list jsval.



(** Every value of the record was written for some column of that name. *)
Lemma forEach_header_lookup_inv headers index (o : obj) (k : string) (x : jsval) :
  obj_props (forEach_header headers index row o) !! k = Some x →
  (∃ j h, headers !! j = Some h ∧ toString h = k
          ∧ x = js_or (array_get row (index + j)) VNull)
  ∨ obj_props o !! k = Some x.
Proof.
  revert index o. induction headers as [|h0 rest IH]; intros index o Hx; [by right|].
  simpl in Hx. apply IH in Hx as [(j & h & Hj & Hk & Hv) | Hx].
  - left. exists (S j), h. by rewrite Nat.add_succ_r.
  - apply obj_set_lookup_inv in Hx as [[-> ->] | Hx]; [|by right].
    left. exists 0%nat, h0. by rewrite Nat.add_0_r.
Qed.

Lemma forEach_header_dom headers index (o : obj) :
  "__proto__" ∉ (toString <$> headers) →
  dom (obj_props (forEach_header headers index row o))
  = list_to_set (toString <$> headers) ∪ dom (obj_props o).
Proof.
  revert index o. induction headers as [|h rest IH]; intros index o Hp; simpl.
  - by rewrite (left_id_L ∅ (∪)).
  - simpl in Hp. apply not_elem_of_cons in Hp as [Hne Hrest].
    rewrite IH by done. rewrite obj_set_dom by done.
    rewrite (assoc_L (∪)). f_equal. apply (comm_L (∪)).
Qed.

(** Past the end of the row only null is written. *)
Lemma forEach_header_null_stays headers index (o : obj) (k : string) :
  (length row ≤ index)%nat → k ≠ "__proto__" →
  obj_props o !! k = Some VNull →
  obj_props (forEach_header headers index row o) !! k = Some VNull.
Proof.
  revert index o. induction headers as [|h rest IH]; intros index o Hlen Hp Hk; [done|].
  simpl. apply IH; [lia | done |].
  destruct (decide (k = toString h)) as [->|Hne].
  - rewrite obj_set_lookup_eq by done. by rewrite array_get_beyond.
  - by rewrite obj_set_lookup_ne.
Qed.

Lemma forEach_header_beyond headers index (o : obj) (j : nat) (h : jsval) :
  headers !! j = Some h → toString h ≠ "__proto__" →
  (length row ≤ index + j)%nat →
  obj_props (forEach_header headers index row o) !! toString h = Some VNull.
Proof.
  revert index o j. induction headers as [|h0 rest IH]; intros index o j Hj Hp Hlen;
    [done|].
  destruct j as [|j]; simpl in *.
  - injection Hj as ->. apply forEach_header_null_stays; [lia | done |].
    rewrite obj_set_lookup_eq by done. rewrite array_get_beyond by lia. done.
  - apply (IH (S index) _ j); [done | done | lia].
Qed.
End ForEachHeader.

(** C5, as amended.  For a header of [n] cells, none of them named
    [__proto__], and a data row shorter than [n], the record's keys are
    exactly the header names, repeated names counted once (so [n] keys when
    the names are pairwise distinct), and every header name at a position
    beyond the row's length maps to null. *)
Theorem row_to_obj_keys (headers row : list jsval) :
  (length row < length headers)%nat →
  "__proto__" ∉ (toString <$> headers) →
  let record := obj_props (row_to_obj headers row) in
  let keys := toString <$> headers in
  dom record = list_to_set keys
  ∧ (NoDup keys → size record = length headers)
  ∧ (∀ i h, headers !! i = Some h → (length row ≤ i)%nat →
       record !! toString h = Some VNull).
Proof.
  intros Hshort Hp record keys. unfold record, keys, row_to_obj.
  assert (dom (obj_props (forEach_header headers 0 row obj_empty))
          = list_to_set (toString <$> headers)) as Hdom.
  { rewrite forEach_header_dom by done. simpl.
    by rewrite dom_empty_L, (right_id_L ∅ (∪)). }
  split; [exact Hdom|]. split.
  - intros Hnd. rewrite <- size_dom, Hdom.
    rewrite size_list_to_set by done. by rewrite length_fmap.
  - intros i h Hi Hlen. apply (forEach_header_beyond row headers 0 _ i); [done | | done].
    intros Heq. apply Hp. rewrite <- Heq.
    apply list_elem_of_fmap. exists h. split; [done|].
    apply list_elem_of_lookup. eauto.
Qed.

Lemma row_to_obj_keys_witness :
  dom (obj_props (row_to_obj [VStr "sku"; VStr "qty"; VStr "note"] [VStr "A-1"]))
  = list_to_set ["sku"; "qty"; "note"]
  ∧ obj_props (row_to_obj [VStr "sku"; VStr "qty"; VStr "note"] [VStr "A-1"]) !! "note"
    = Some VNull.
Proof.
  destruct (row_to_obj_keys [VStr "sku"; VStr "qty"; VStr "note"] [VStr "A-1"])
    as (Hdom & _ & Hnull); [simpl; lia | |].
  { simpl. intros Hin. repeat (apply elem_of_cons in Hin as [?|Hin]; [done|]).
    by apply elem_of_nil in Hin. }
  split; [exact Hdom|].
  apply (Hnull 2%nat (VStr "note")); [reflexivity | simpl; lia].
Defined.

(** Every key of a record is a header name, whatever the header. *)
Lemma row_to_obj_keys_are_headers (headers row : list jsval) (k : string) :
  k ∈ dom (obj_props (row_to_obj headers row)) → k ∈ (toString <$> headers).
Proof.
  intros [x Hx]%elem_of_dom.
  apply forEach_header_lookup_inv in Hx as [(j & h & Hj & <- & _) | Hx]; [|done].
  apply list_elem_of_fmap. exists h. split; [done|].
  apply list_elem_of_lookup. eauto.
Qed.

(** C5 as stated fails in two ways.  When two header cells carry the same
    name the record of a two-cell header has one key; and a header cell
    named [__proto__] beyond the row's length yields no key at all, the
    assignment of null to it being taken by the prototype accessor. *)
Lemma row_to_obj_repeated_header :
  ((length [VStr "A-1"] < length [VStr "sku"; VStr "sku"])%nat
   ∧ obj_props (row_to_obj [VStr "sku"; VStr "sku"] [VStr "A-1"]) = {["sku" := VNull]}
   ∧ size (obj_props (row_to_obj [VStr "sku"; VStr "sku"] [VStr "A-1"]))
     ≠ length [VStr "sku"; VStr "sku"])
  ∧ ((length [VStr "A-1"] < length [VStr "sku"; VStr "__proto__"])%nat
     ∧ obj_props (row_to_obj [VStr "sku"; VStr "__proto__"] [VStr "A-1"])
       = {["sku" := VStr "A-1"]}
     ∧ obj_props (row_to_obj [VStr "sku"; VStr "__proto__"] [VStr "A-1"]) !! "__proto__"
       ≠ Some VNull).
Proof.
  split; (split; [simpl; lia|]); (split; [by vm_compute|]); vm_compute; discriminate.
Qed.

(** A header cell named [__proto__] yields no key when its cell is a
    primitive; after an assignment of null to it, a second cell of that name
    is stored as an ordinary key. *)
Example row_to_obj_proto_header :
  obj_props (row_to_obj [VStr "__proto__"; VStr "sku"] [VStr "x"; VStr "A-1"])
  = {["sku" := VStr "A-1"]}
  ∧ obj_props (row_to_obj [VStr "__proto__"; VStr "__proto__"] [])
    = {["__proto__" := VNull]}.
Proof. split; by vm_compute. Qed.




(** * Further properties of the code *)

(** ** getSheetDataWebhook: guards, failures and the shape of the answer *)

Ltac answer_cases :=
  eexists _, _; (split; [reflexivity|]); simpl;
  repeat split; auto; try (intros [?|?]; lia); try (intros; lia).

(** X1. With a valid webhook token, a request without [spreadsheetId] (or
    with an empty one) is answered 400 with the missing-parameter error, and
    no remote call is issued. *)
Theorem webhook_missing_spreadsheetId (query : webhookQuery) (w : world) tok :
  q_webhookToken query = Some tok → tok ≠ "" → env_WEBHOOK_TOKEN w = Some tok →
  q_spreadsheetId query = None ∨ q_spreadsheetId query = Some "" →
  getSheetDataWebhook query w
  = (Ok (mkResponse 400 (BError "Missing required parameter: spreadsheetId")), []).
Proof.
  intros Htok Hne Henv Hid.
  unfold getSheetDataWebhook. unfold_M. simpl.
  rewrite Htok, Henv. simpl.
  rewrite bool_decide_eq_true_2 by done.
  destruct (String.eqb_spec tok ""); [done|]. simpl.
  by destruct Hid as [-> | ->].
Qed.

Lemma webhook_missing_spreadsheetId_witness :
  getSheetDataWebhook (mkQuery None (Some "A1:B2") (Some "s3cret")) calm_world
  = (Ok (mkResponse 400 (BError "Missing required parameter: spreadsheetId")), []).
Proof.
  apply (webhook_missing_spreadsheetId _ _ "s3cret");
    [reflexivity | discriminate | reflexivity | by left].
Defined.

(** X2. The webhook handler never lets an error escape: it always answers,
    with status 200, 400, 401 or 500, after at most two remote calls (the
    token exchange, then the Sheets read); a 400 or 401 is answered without
    any remote call, and a 200 only after both. *)
Theorem webhook_always_answers (query : webhookQuery) (w : world) :
  ∃ r t,
    getSheetDataWebhook query w = (Ok r, t)
    ∧ (status r = 200 ∨ status r = 400 ∨ status r = 401 ∨ status r = 500)
    ∧ (t = [] ∨ t = [OAuthGetAccessToken]
       ∨ t = [OAuthGetAccessToken;
              SheetsValuesGet (default "" (q_spreadsheetId query))
                (or_str (q_range query) "Sheet1")])
    ∧ (status r = 400 ∨ status r = 401 → t = [])
    ∧ (status r = 200 → length t = 2%nat).
Proof.
  unfold getSheetDataWebhook. unfold_M. simpl.
  destruct (negb (truthy_str (q_webhookToken query)) || _); [answer_cases|].
  destruct (negb (truthy_str (q_spreadsheetId query))); [answer_cases|].
  simpl. destruct (oauth_getAccessToken w) as [accessToken|e]; simpl;
    [|answer_cases].
  rewrite readSheet_run.
  destruct (sheets_values_get w accessToken _ _) as [values|e]; simpl;
    [|answer_cases].
  destruct (length (default [] values) <? 1)%nat; simpl; answer_cases.
Qed.

(** X3. When the token exchange fails the sheet is never read: the answer is
    500 with error [Failed to read Google Sheet] and the exchange's message,
    after that single call. *)
Theorem webhook_token_exchange_failure (query : webhookQuery) (w : world) tok id e :
  q_webhookToken query = Some tok → tok ≠ "" → env_WEBHOOK_TOKEN w = Some tok →
  q_spreadsheetId query = Some id → id ≠ "" →
  oauth_getAccessToken w = Throw e →
  getSheetDataWebhook query w
  = (Ok (mkResponse 500 (BErrorMessage "Failed to read Google Sheet" e)),
     [OAuthGetAccessToken]).
Proof.
  intros Htok Hne Henv Hid Hidne Hoauth.
  unfold getSheetDataWebhook. unfold_M. simpl.
  rewrite Htok, Henv, Hid. simpl.
  rewrite bool_decide_eq_true_2 by done.
  destruct (String.eqb_spec tok ""); [done|].
  destruct (String.eqb_spec id ""); [done|]. simpl.
  by rewrite Hoauth.
Qed.

Lemma webhook_token_exchange_failure_witness :
  getSheetDataWebhook (sample_query (Some "s3cret"))
    (with_sheets calm_world (Throw "No refresh token is set.") (Ok None))
  = (Ok (mkResponse 500
           (BErrorMessage "Failed to read Google Sheet" "No refresh token is set.")),
     [OAuthGetAccessToken]).
Proof.
  apply (webhook_token_exchange_failure _ _ "s3cret" "sheet-1");
    [reflexivity | discriminate | reflexivity | reflexivity | discriminate | reflexivity].
Defined.

(** X4. When the Sheets read fails the answer is 500; its [message] is the
    provider's reason wrapped by [readSheet] with the spreadsheet id. *)
Theorem webhook_read_failure (query : webhookQuery) (w : world)
    tok id accessToken e :
  q_webhookToken query = Some tok → tok ≠ "" → env_WEBHOOK_TOKEN w = Some tok →
  q_spreadsheetId query = Some id → id ≠ "" →
  oauth_getAccessToken w = Ok accessToken →
  sheets_values_get w accessToken id (or_str (q_range query) "Sheet1") = Throw e →
  getSheetDataWebhook query w
  = (Ok (mkResponse 500
           (BErrorMessage "Failed to read Google Sheet"
              ("Failed to read Google Sheet (ID: " +:+ id +:+ "). Reason: " +:+ e))),
     [OAuthGetAccessToken; SheetsValuesGet id (or_str (q_range query) "Sheet1")]).
Proof.
  intros Htok Hne Henv Hid Hidne Hoauth Hread.
  rewrite (webhook_accepted_run query w tok id accessToken) by done.
  simpl. by rewrite Hread.
Qed.

Lemma webhook_read_failure_witness :
  getSheetDataWebhook (sample_query (Some "s3cret"))
    (with_sheets calm_world (Ok (Some "service-token")) (Throw "Requested entity was not found."))
  = (Ok (mkResponse 500
           (BErrorMessage "Failed to read Google Sheet"
              "Failed to read Google Sheet (ID: sheet-1). Reason: Requested entity was not found.")),
     [OAuthGetAccessToken; SheetsValuesGet "sheet-1" "Sheet1"]).
Proof.
  exact (webhook_read_failure (sample_query (Some "s3cret"))
           (with_sheets calm_world (Ok (Some "service-token"))
              (Throw "Requested entity was not found."))
           "s3cret" "sheet-1" (Some "service-token") "Requested entity was not found."
           eq_refl ltac:(discriminate) eq_refl eq_refl ltac:(discriminate)
           eq_refl eq_refl).
Defined.

(** X5. On a sheet with a header row the answer is 200 and its [rowCount]
    is the number of records in [data], one record per data row and in the
    rows' order, each built from the header row; the [range] echoed is the
    range that was read. *)
Theorem webhook_rows_answer (query : webhookQuery) (w : world)
    tok id accessToken values headers rows :
  q_webhookToken query = Some tok → tok ≠ "" → env_WEBHOOK_TOKEN w = Some tok →
  q_spreadsheetId query = Some id → id ≠ "" →
  oauth_getAccessToken w = Ok accessToken →
  sheets_values_get w accessToken id (or_str (q_range query) "Sheet1") = Ok values →
  default [] values = headers :: rows →
  ∃ data,
    getSheetDataWebhook query w
    = (Ok (mkResponse 200
             (BSheet id (or_str (q_range query) "Sheet1") (length data) data)),
       [OAuthGetAccessToken; SheetsValuesGet id (or_str (q_range query) "Sheet1")])
    ∧ length data = length rows
    ∧ ∀ i row, rows !! i = Some row → data !! i = Some (row_to_obj headers row).
Proof.
  intros Htok Hne Henv Hid Hidne Hoauth Hread Hsheet.
  rewrite (webhook_accepted_run query w tok id accessToken) by done.
  simpl. rewrite Hread, Hsheet. simpl. rewrite drop_0.
  exists (row_to_obj headers <$> rows).
  split; [reflexivity|]. split; [apply length_fmap|].
  intros i row Hrow. by rewrite list_lookup_fmap, Hrow.
Qed.

Lemma webhook_rows_answer_witness :
  ∃ data,
    getSheetDataWebhook (sample_query (Some "s3cret")) calm_world
    = (Ok (mkResponse 200 (BSheet "sheet-1" "Sheet1" 2 data)),
       [OAuthGetAccessToken; SheetsValuesGet "sheet-1" "Sheet1"])
    ∧ data !! 1%nat = Some (row_to_obj [VStr "sku"; VStr "qty"] [VStr "B-2"]).
Proof.
  destruct (webhook_rows_answer (sample_query (Some "s3cret")) calm_world
              "s3cret" "sheet-1" (Some "service-token")
              (Some [[VStr "sku"; VStr "qty"]; [VStr "A-1"; VNum "4"; VStr "extra"];
                     [VStr "B-2"]])
              [VStr "sku"; VStr "qty"]
              [[VStr "A-1"; VNum "4"; VStr "extra"]; [VStr "B-2"]])
    as (data & Hrun & Hlen & Hrows);
    [reflexivity | discriminate | reflexivity | reflexivity | discriminate
    | reflexivity | reflexivity | reflexivity |].
  exists data. simpl in Hlen. rewrite Hlen in Hrun. split; [exact Hrun|].
  by apply Hrows.
Defined.

(** ** Rows to keyed records, continued *)

Lemma array_get_take (row : list jsval) (n i : nat) :
  (i < n)%nat → array_get (take n row) i = array_get row i.
Proof. intros H. unfold array_get. by rewrite lookup_take_lt. Qed.

Lemma forEach_header_take headers index (row : list jsval) (o : obj) :
  forEach_header headers index (take (index + length headers) row) o
  = forEach_header headers index row o.
Proof.
  revert index row o. induction headers as [|h rest IH]; intros index row o; [done|].
  simpl. rewrite array_get_take by lia.
  replace (index + S (length rest))%nat with (S index + length rest)%nat by lia.
  rewrite <- (IH (S index) (take (S index + length rest) row)).
  by rewrite take_take, Nat.min_id, IH.
Qed.

(** X6. Cells beyond the header's width never reach the record: a row and
    its first [n] cells, [n] the number of header cells, give the same
    record. *)
Theorem row_to_obj_ignores_extra_cells (headers row : list jsval) :
  row_to_obj headers (take (length headers) row) = row_to_obj headers row.
Proof. apply (forEach_header_take headers 0). Qed.

(** ** The query string of the forwarder *)

Lemma contains_char_app (c : ascii) (a b : string) :
  contains_char c (a +:+ b) = contains_char c a || contains_char c b.
Proof.
  induction a as [|x a IH]; [done|].
  simpl. by destruct (Ascii.eqb c x).
Qed.

Lemma contains_char_singleton (c x : ascii) :
  contains_char c (String x "") = true → c = x.
Proof. simpl. by destruct (Ascii.eqb_spec c x). Qed.

Lemma hex_digit_keep (k : N) :
  (k < 16)%N → form_keep (N_of_ascii (hex_digit k)) = true.
Proof.
  intros H.
  assert (k = 0 ∨ k = 1 ∨ k = 2 ∨ k = 3 ∨ k = 4 ∨ k = 5 ∨ k = 6 ∨ k = 7 ∨ k = 8
          ∨ k = 9 ∨ k = 10 ∨ k = 11 ∨ k = 12 ∨ k = 13 ∨ k = 14 ∨ k = 15)%N as Hk
    by lia.
  repeat (destruct Hk as [-> | Hk]; [reflexivity|]). by subst.
Qed.

Lemma form_byte_chars (a c : ascii) :
  contains_char c (form_byte a) = true →
  form_keep (N_of_ascii c) = true ∨ c = "+"%char ∨ c = "%"%char.
Proof.
  unfold form_byte.
  destruct (N_of_ascii a =? 32)%N.
  { intros H%contains_char_singleton. auto. }
  destruct (form_keep (N_of_ascii a)) eqn:Hkeep.
  { intros ->%contains_char_singleton. auto. }
  pose proof (N_ascii_bounded a) as Hb.
  cbn [contains_char].
  destruct (Ascii.eqb_spec c "%"); [auto|].
  destruct (Ascii.eqb_spec c (hex_digit (N_of_ascii a / 16))) as [->|_].
  { intros _. left. apply hex_digit_keep. apply N.Div0.div_lt_upper_bound. lia. }
  destruct (Ascii.eqb_spec c (hex_digit (N_of_ascii a mod 16))) as [->|_]; [|done].
  intros _. left. apply hex_digit_keep. apply N.mod_upper_bound. lia.
Qed.

Lemma form_encode_chars (s : string) (c : ascii) :
  contains_char c (form_encode s) = true →
  form_keep (N_of_ascii c) = true ∨ c = "+"%char ∨ c = "%"%char.
Proof.
  induction s as [|a s IH]; [done|].
  simpl. rewrite contains_char_app.
  intros [H|H]%orb_true_iff; [by apply (form_byte_chars a) | by apply IH].
Qed.

(** X7. An encoded name or value consists of letters, digits and the
    characters [* - . _ + %] only.  In particular it never contains [&], [=],
    [?], [#] or a space, so no parameter can add or split a parameter of the
    query string. *)
Theorem form_encode_safe (s : string) :
  (∀ c, contains_char c (form_encode s) = true →
        form_keep (N_of_ascii c) = true ∨ c = "+"%char ∨ c = "%"%char)
  ∧ contains_char "&" (form_encode s) = false
  ∧ contains_char "=" (form_encode s) = false
  ∧ contains_char "?" (form_encode s) = false
  ∧ contains_char "#" (form_encode s) = false
  ∧ contains_char " " (form_encode s) = false.
Proof.
  split; [apply form_encode_chars|].
  repeat split;
    (destruct (contains_char _ (form_encode s)) eqn:H; [|done];
     apply form_encode_chars in H as [H | [H | H]]; discriminate).
Qed.

(** X8. Whenever the metadata values convert, the request's parameters are
    the three fixed ones followed by the appended ones: a metadata entry,
    whatever its name, never replaces a fixed parameter.  An entry is
    appended exactly when its value is neither null nor undefined, with the
    text of its value, so [false], [0] and the empty string are forwarded. *)
Theorem n8n_params_shape (spreadsheetId n8nWebhookUrl : string)
    (metadata : list (string * metaval)) (w : world) :
  (∀ k v, (k, v) ∈ metadata → present v = true → is_Some (to_text v)) →
  ∃ appended,
    snd (sendToN8n spreadsheetId n8nWebhookUrl metadata w)
    = [AxiosGet
         (n8n_url n8nWebhookUrl
            ([("spreadsheetId", spreadsheetId); ("timestamp", now_ISO w);
              ("source", "RetailSyncSaaS")] ++ appended)) None]
    ∧ (∀ k s, (k, s) ∈ appended
         ↔ ∃ v, (k, v) ∈ metadata ∧ present v = true ∧ to_text v = Some s)
    ∧ (∀ k, (k, MVal (VBool false)) ∈ metadata → (k, "false") ∈ appended)
    ∧ (∀ k, (k, MVal (VNum "0")) ∈ metadata → (k, "0") ∈ appended)
    ∧ (∀ k, (k, MVal (VStr "")) ∈ metadata → (k, "") ∈ appended).
Proof.
  intros Hconv. exists (spec_metadata_params metadata).
  assert (∀ k s, (k, s) ∈ spec_metadata_params metadata
            ↔ ∃ v, (k, v) ∈ metadata ∧ present v = true ∧ to_text v = Some s) as Hmem.
  { intros k s. unfold spec_metadata_params.
    change (map ?f ?l) with (f <$> l). rewrite list_elem_of_fmap. split.
    - intros ([k' v] & [= -> ->] & [Hp Hin]%list_elem_of_filter). simpl in *.
      exists v. destruct (Hconv k' v Hin Hp) as [text Htext].
      by rewrite Htext.
    - intros (v & Hin & Hp & Htext). exists (k, v). simpl. rewrite Htext.
      split; [done|]. by apply list_elem_of_filter. }
  split.
  { rewrite sendToN8n_run, (metadata_params_spec metadata Hconv). reflexivity. }
  split; [exact Hmem|].
  repeat split; intros k Hin; apply Hmem; eexists; (split; [exact Hin|]); done.
Qed.

(** ** makeFilePublic and uploadSpreadsheet: the failure domains *)

(** X9. The diagnostic read that precedes the permission call cannot block
    it: whatever that read meets, [makeFilePublic] issues the same calls and
    returns the same result. *)
Theorem makeFilePublic_precheck_irrelevant tok fileId (w : world)
    (answer : res fileResource) :
  makeFilePublic tok fileId
    (with_drive_files_get w
       (λ t f fields, if String.eqb fields check_fields then answer
                      else drive_files_get w t f fields))
  = makeFilePublic tok fileId w.
Proof. by rewrite !makeFilePublic_run. Qed.

(** X10. When the permission call itself fails, nothing follows it (no
    second read, no reachability GET) and the upload still returns the
    created file: not public, without public URL, with the link Drive gave at
    creation and the wrapped error message. *)
Theorem upload_permission_failure tok file fileName (w : world) created e :
  drive_files_create w tok (or_str fileName (originalname file)) file = Ok created →
  drive_permissions_create w tok (fr_id created) = Throw e →
  ∃ d,
    uploadSpreadsheet tok file fileName true w
    = (Ok d,
       [DriveFilesCreate (or_str fileName (originalname file))
          "application/vnd.google-apps.spreadsheet" (mimetype file);
        DriveFilesGet (fr_id created) check_fields;
        DrivePermissionsCreate (fr_id created) "writer" "anyone" false])
    ∧ sd_id d = fr_id created ∧ sd_name d = fr_name created
    ∧ sd_isPublic d = Some false ∧ sd_publicUrl d = None
    ∧ sd_webViewLink d = fr_webViewLink created
    ∧ sd_publicPermissionError d
      = Some ("Failed to make file public (ID: " +:+ fr_id created
                +:+ "). Reason: " +:+ e).
Proof.
  intros Hc Hp. rewrite uploadSpreadsheet_run. simpl.
  rewrite Hc, makeFilePublic_run, Hp. eexists. split; [reflexivity|]. done.
Qed.

Lemma upload_permission_failure_witness :
  ∃ d,
    fst (uploadSpreadsheet "tok" stock_upload (Some "Stock May") true
           (sample_world None (Throw "The user does not have sufficient permissions")
              (Response 200 ""))) = Ok d
    ∧ sd_name d = "Stock May" ∧ sd_isPublic d = Some false.
Proof.
  destruct (upload_permission_failure "tok" stock_upload (Some "Stock May")
              (sample_world None (Throw "The user does not have sufficient permissions")
                 (Response 200 ""))
              (mkFileResource "new-1" "Stock May" None None [])
              "The user does not have sufficient permissions" eq_refl eq_refl)
    as (d & Hrun & _ & Hname & Hpub & _).
  exists d. rewrite Hrun. done.
Defined.

(** X11. When the permission was granted but the read that follows fails,
    [makeFilePublic] fails as a whole: the descriptor says [isPublic: false]
    and carries that read's error although the permission call succeeded,
    and the reachability GET is not attempted. *)
Theorem upload_granted_but_reread_fails tok file fileName (w : world) created p e :
  drive_files_create w tok (or_str fileName (originalname file)) file = Ok created →
  drive_permissions_create w tok (fr_id created) = Ok p →
  drive_files_get w tok (fr_id created) info_fields = Throw e →
  ∃ d,
    uploadSpreadsheet tok file fileName true w
    = (Ok d,
       [DriveFilesCreate (or_str fileName (originalname file))
          "application/vnd.google-apps.spreadsheet" (mimetype file);
        DriveFilesGet (fr_id created) check_fields;
        DrivePermissionsCreate (fr_id created) "writer" "anyone" false;
        DriveFilesGet (fr_id created) info_fields])
    ∧ sd_isPublic d = Some false ∧ sd_publicUrl d = None
    ∧ sd_publicPermissions d = None
    ∧ sd_publicPermissionError d
      = Some ("Failed to make file public (ID: " +:+ fr_id created
                +:+ "). Reason: " +:+ e).
Proof.
  intros Hc Hp Hi. rewrite uploadSpreadsheet_run. simpl.
  rewrite Hc, makeFilePublic_run, Hp, Hi. eexists. split; [reflexivity|]. done.
Qed.

Lemma upload_granted_but_reread_fails_witness :
  ∃ d,
    fst (uploadSpreadsheet "tok" stock_upload None true
           (with_drive_files_get calm_world
              (λ _ _ fields, if String.eqb fields info_fields then Throw "backendError"
                             else Ok budget_file))) = Ok d
    ∧ sd_isPublic d = Some false
    ∧ sd_publicPermissionError d
      = Some "Failed to make file public (ID: new-1). Reason: backendError".
Proof.
  destruct (upload_granted_but_reread_fails "tok" stock_upload None
              (with_drive_files_get calm_world
                 (λ _ _ fields, if String.eqb fields info_fields then Throw "backendError"
                                else Ok budget_file))
              (mkFileResource "new-1" "stock.csv" None None []) anyone_writer
              "backendError" eq_refl eq_refl eq_refl)
    as (d & Hrun & Hpub & _ & _ & Herr).
  exists d. rewrite Hrun. done.
Defined.

(** X12. With [makePublic] false the upload is the creation alone: one
    remote call, and the created file returned with [isPublic: false], no
    public URL and no error. *)
Theorem upload_without_publication tok file fileName (w : world) created :
  drive_files_create w tok (or_str fileName (originalname file)) file = Ok created →
  ∃ d,
    uploadSpreadsheet tok file fileName false w
    = (Ok d,
       [DriveFilesCreate (or_str fileName (originalname file))
          "application/vnd.google-apps.spreadsheet" (mimetype file)])
    ∧ sd_id d = fr_id created ∧ sd_name d = fr_name created
    ∧ sd_webViewLink d = fr_webViewLink created
    ∧ sd_isPublic d = Some false ∧ sd_publicUrl d = None
    ∧ sd_publicPermissionError d = None.
Proof.
  intros Hc. unfold uploadSpreadsheet. unfold_M. simpl. rewrite Hc. simpl.
  eexists. split; [reflexivity|]. done.
Qed.

Lemma upload_without_publication_witness :
  ∃ d,
    uploadSpreadsheet "tok" stock_upload None false calm_world
    = (Ok d, [DriveFilesCreate "stock.csv" "application/vnd.google-apps.spreadsheet"
                "text/csv"])
    ∧ sd_isPublic d = Some false.
Proof.
  destruct (upload_without_publication "tok" stock_upload None calm_world
              (mkFileResource "new-1" "stock.csv" None None []) eq_refl)
    as (d & Hrun & _ & _ & _ & Hpub & _).
  exists d. split; [exact Hrun | exact Hpub].
Defined.

(** X14. On full success the upload issues, in this order, the creation,
    the diagnostic read, the permission call, the second read and the
    reachability GET; the descriptor keeps the created file's id and name,
    takes its link from the second read, and has [isPublic: true] with the
    sharing URL of the file as [publicUrl]. *)
Theorem upload_published tok file fileName (w : world) created p fileInfo :
  drive_files_create w tok (or_str fileName (originalname file)) file = Ok created →
  drive_permissions_create w tok (fr_id created) = Ok p →
  drive_files_get w tok (fr_id created) info_fields = Ok fileInfo →
  ∃ d,
    uploadSpreadsheet tok file fileName true w
    = (Ok d,
       [DriveFilesCreate (or_str fileName (originalname file))
          "application/vnd.google-apps.spreadsheet" (mimetype file);
        DriveFilesGet (fr_id created) check_fields;
        DrivePermissionsCreate (fr_id created) "writer" "anyone" false;
        DriveFilesGet (fr_id created) info_fields;
        AxiosGet (sheet_url (fr_id created)) (Some 0)])
    ∧ sd_id d = fr_id created ∧ sd_name d = fr_name created
    ∧ sd_webViewLink d = fr_webViewLink fileInfo
    ∧ sd_isPublic d = Some true
    ∧ sd_publicUrl d = Some (sheet_url (fr_id created))
    ∧ sd_publicPermissionError d = None.
Proof.
  intros Hc Hp Hi. rewrite uploadSpreadsheet_run. simpl.
  rewrite Hc, makeFilePublic_run, Hp, Hi. eexists. split; [reflexivity|]. done.
Qed.

Lemma upload_published_witness :
  ∃ d,
    fst (uploadSpreadsheet "tok" stock_upload None true calm_world) = Ok d
    ∧ sd_isPublic d = Some true
    ∧ sd_publicUrl d = Some "https://docs.google.com/spreadsheets/d/new-1/edit?usp=sharing".
Proof.
  destruct (upload_published "tok" stock_upload None calm_world
              (mkFileResource "new-1" "stock.csv" None None []) anyone_writer
              (mkFileResource "new-1" "Budget" None None []) eq_refl eq_refl eq_refl)
    as (d & Hrun & _ & _ & _ & Hpub & Hurl & _).
  exists d. rewrite Hrun. done.
Defined.

(** ** uploadSpreadsheetController: every path *)

Lemma spec_metadata_params_elem (metadata : list (string * metaval)) k v s :
  (k, v) ∈ metadata → present v = true → to_text v = Some s →
  (k, s) ∈ spec_metadata_params metadata.
Proof.
  intros Hin Hp Htext. unfold spec_metadata_params.
  change (map ?f ?l) with (f <$> l). apply list_elem_of_fmap.
  exists (k, v). simpl. rewrite Htext. split; [done|].
  by apply list_elem_of_filter.
Qed.

(** The metadata of the upload endpoint holds scalars only: its conversion
    cannot fail. *)
Lemma upload_metadata_converts d publicUrl u file k v :
  (k, v) ∈ upload_metadata d publicUrl u file → present v = true →
  is_Some (to_text v).
Proof.
  intros Hin _. unfold upload_metadata in Hin.
  repeat (apply elem_of_cons in Hin as [[= -> ->] | Hin]; [by eexists|]).
  by apply elem_of_nil in Hin.
Qed.

Lemma sendToN8n_upload_run d publicUrl u file url (w : world) :
  sendToN8n (sd_id d) url (upload_metadata d publicUrl u file) w =
    let fullUrl := n8n_url url
                     (n8n_params (sd_id d) (now_ISO w)
                        (spec_metadata_params (upload_metadata d publicUrl u file))) in
    (match http_get w None fullUrl with
     | Response st data =>
         if default_validateStatus st then Ok data
         else Throw ("Failed to send data to n8n: "
                       +:+ "Request failed with status code " +:+ pretty st)
     | NetworkError msg => Throw ("Failed to send data to n8n: " +:+ msg)
     end,
     [AxiosGet fullUrl None]).
Proof.
  rewrite sendToN8n_run.
  by rewrite (metadata_params_spec _ (upload_metadata_converts d publicUrl u file)).
Qed.

Lemma uploadSpreadsheet_outcome tok file fileName (w : world) :
  (∃ e,
     drive_files_create w tok (or_str fileName (originalname file)) file = Throw e
     ∧ uploadSpreadsheet tok file fileName true w
       = (Throw ("Failed to upload spreadsheet. Reason: " +:+ e),
          [DriveFilesCreate (or_str fileName (originalname file))
             "application/vnd.google-apps.spreadsheet" (mimetype file)]))
  ∨ (∃ created d t,
       drive_files_create w tok (or_str fileName (originalname file)) file = Ok created
       ∧ uploadSpreadsheet tok file fileName true w = (Ok d, t)
       ∧ sd_id d = fr_id created
       ∧ (sd_publicUrl d = None ∨ sd_publicUrl d = Some (sheet_url (sd_id d)))).
Proof.
  rewrite uploadSpreadsheet_run. simpl.
  destruct (drive_files_create w tok _ file) as [created|e]; [right | left; eauto].
  rewrite makeFilePublic_run.
  destruct (drive_permissions_create w tok (fr_id created)) as [p|e];
    [destruct (drive_files_get w tok (fr_id created) info_fields) as [fi|e]|];
    eexists _, _, _; (split; [reflexivity|]); (split; [reflexivity|]); simpl; auto.
Qed.

Lemma uploadSpreadsheetController_run (req : apiRequest) (w : world) tok file :
  user_accessToken req = Some tok → req_file req = Some file →
  uploadSpreadsheetController req w =
    match uploadSpreadsheet tok file (body_fileName req) true w with
    | (Throw e, t) =>
        (Ok (mkResponse 500
               (BMessageError "Failed to upload spreadsheet to Google Drive." e)), t)
    | (Ok d, t) =>
        let url := or_str (env_N8N_WEBHOOK_URL w) default_n8n_url in
        match sendToN8n (sd_id d) url
                (upload_metadata d (or_str (sd_publicUrl d) (sheet_url (sd_id d)))
                   (req_user req) file) w with
        | (Ok result, t') =>
            (Ok (mkResponse 201
                   (BUploaded "Spreadsheet uploaded and automatically sent to n8n workflow!"
                      d (mkForwarding true url (Some result) None))), t ++ t')
        | (Throw e, t') =>
            (Ok (mkResponse 201
                   (BUploaded
                      "Spreadsheet uploaded successfully, but failed to send to n8n workflow."
                      d (mkForwarding false url None (Some e)))), t ++ t')
        end
    end.
Proof.
  intros Huser Hfile. unfold uploadSpreadsheetController. rewrite Huser, Hfile.
  unfold_M.
  destruct (uploadSpreadsheet tok file (body_fileName req) true w) as [[d|e] t]; simpl.
  - destruct (sendToN8n _ _ _ w) as [[result|e] t']; simpl; by rewrite !app_nil_r.
  - by rewrite app_nil_r.
Qed.

(** X13. A failed creation is the one fatal failure of the upload endpoint:
    the answer is 500 with the wrapped provider message, after that single
    call; neither a permission call nor the forward is attempted. *)
Theorem upload_controller_creation_failure (req : apiRequest) (w : world) tok file e :
  user_accessToken req = Some tok → req_file req = Some file →
  drive_files_create w tok (or_str (body_fileName req) (originalname file)) file
    = Throw e →
  uploadSpreadsheetController req w
  = (Ok (mkResponse 500
           (BMessageError "Failed to upload spreadsheet to Google Drive."
              ("Failed to upload spreadsheet. Reason: " +:+ e))),
     [DriveFilesCreate (or_str (body_fileName req) (originalname file))
        "application/vnd.google-apps.spreadsheet" (mimetype file)]).
Proof.
  intros Huser Hfile Hc.
  rewrite (uploadSpreadsheetController_run req w tok file) by done.
  rewrite uploadSpreadsheet_run. simpl. by rewrite Hc.
Qed.

Lemma upload_controller_creation_failure_witness :
  uploadSpreadsheetController (sample_request true (Some "tok"))
    (with_drive_files_create calm_world (λ _ _ _, Throw "storageQuotaExceeded"))
  = (Ok (mkResponse 500
           (BMessageError "Failed to upload spreadsheet to Google Drive."
              "Failed to upload spreadsheet. Reason: storageQuotaExceeded")),
     [DriveFilesCreate "stock.csv" "application/vnd.google-apps.spreadsheet" "text/csv"]).
Proof.
  exact (upload_controller_creation_failure (sample_request true (Some "tok"))
           (with_drive_files_create calm_world (λ _ _ _, Throw "storageQuotaExceeded"))
           "tok" stock_upload "storageQuotaExceeded" eq_refl eq_refl eq_refl).
Defined.

(** X15. When the file is created and the forward GET meets a 2xx response,
    the answer is 201 with the descriptor and
    [n8nForwarding = {success: true, webhookUrl, result}], [result] being
    the body of that response; the forward is the last call issued. *)
Theorem upload_controller_forwarded (req : apiRequest) (w : world)
    tok file created :
  user_accessToken req = Some tok → req_file req = Some file →
  drive_files_create w tok (or_str (body_fileName req) (originalname file)) file
    = Ok created →
  ∃ d t fullUrl,
    uploadSpreadsheet tok file (body_fileName req) true w = (Ok d, t)
    ∧ fullUrl
      = n8n_url (or_str (env_N8N_WEBHOOK_URL w) default_n8n_url)
          (n8n_params (sd_id d) (now_ISO w)
             (spec_metadata_params
                (upload_metadata d (or_str (sd_publicUrl d) (sheet_url (sd_id d)))
                   (req_user req) file)))
    ∧ ∀ st data,
        http_get w None fullUrl = Response st data → 200 ≤ st < 300 →
        uploadSpreadsheetController req w
        = (Ok (mkResponse 201
                 (BUploaded "Spreadsheet uploaded and automatically sent to n8n workflow!" d
                    (mkForwarding true (or_str (env_N8N_WEBHOOK_URL w) default_n8n_url)
                       (Some data) None))),
           t ++ [AxiosGet fullUrl None]).
Proof.
  intros Huser Hfile Hc.
  destruct (uploadSpreadsheet_created tok file (body_fileName req) true w created Hc)
    as (d & t & Hrun & _).
  exists d, t. eexists. split; [exact Hrun|]. split; [reflexivity|].
  intros st data Hnet [H1 H2].
  rewrite (uploadSpreadsheetController_run req w tok file) by done.
  rewrite Hrun. simpl. rewrite sendToN8n_upload_run. simpl. rewrite Hnet.
  unfold default_validateStatus.
  apply Z.leb_le in H1. apply Z.ltb_lt in H2. rewrite H1, H2. reflexivity.
Qed.

Lemma upload_controller_forwarded_witness :
  ∃ r t,
    uploadSpreadsheetController (sample_request true (Some "tok")) calm_world = (Ok r, t)
    ∧ status r = 201
    ∧ body_n8nForwarding (resp_body r)
      = Some (mkForwarding true "http://localhost:5678/webhook/x?mode=test" (Some "{}") None).
Proof.
  destruct (upload_controller_forwarded (sample_request true (Some "tok")) calm_world
              "tok" stock_upload (mkFileResource "new-1" "stock.csv" None None [])
              eq_refl eq_refl eq_refl)
    as (d & t & fullUrl & _ & _ & Hctl).
  eexists _, _. split; [exact (Hctl 200 "{}" eq_refl ltac:(lia))|]. done.
Defined.

(** X16. The upload controller checks the token before the file: without a
    token on the user record the answer is 401, with a token but without
    [req.file] it is 400; in both cases no remote call is issued. *)
Theorem upload_controller_guards (req : apiRequest) (w : world) :
  (user_accessToken req = None →
     uploadSpreadsheetController req w
     = (Ok (mkResponse 401
              (BMessage "Authentication required or access token missing.")), []))
  ∧ (∀ tok, user_accessToken req = Some tok → req_file req = None →
       uploadSpreadsheetController req w
       = (Ok (mkResponse 400
                (BMessage "No file uploaded. Please upload a spreadsheet file.")), [])).
Proof.
  unfold uploadSpreadsheetController. split.
  - by intros ->.
  - by intros tok -> ->.
Qed.

Lemma upload_controller_guards_witness :
  uploadSpreadsheetController (mkApiRequest true (Some (sample_user None)) None None)
    calm_world
  = (Ok (mkResponse 401 (BMessage "Authentication required or access token missing.")), [])
  ∧ uploadSpreadsheetController
      (mkApiRequest true (Some (sample_user (Some "tok"))) None None) calm_world
    = (Ok (mkResponse 400 (BMessage "No file uploaded. Please upload a spreadsheet file.")),
       []).
Proof.
  split.
  - by apply (upload_controller_guards
                (mkApiRequest true (Some (sample_user None)) None None)).
  - destruct (upload_controller_guards
                (mkApiRequest true (Some (sample_user (Some "tok"))) None None)
                calm_world) as [_ Hfile].
    by apply (Hfile "tok").
Defined.

(** X17. Whenever the upload endpoint forwards (the file was created), the
    last call is the forward GET, and among the parameters appended to its
    three fixed ones are [publicUrl], always the sharing URL built from the
    created file's id whether or not the file was made public, and
    [isPublic], the text [true] exactly when the descriptor of the answer
    has [isPublic: true]. *)
Theorem upload_forwards_sharing_url (req : apiRequest) (w : world) tok file created :
  user_accessToken req = Some tok → req_file req = Some file →
  drive_files_create w tok (or_str (body_fileName req) (originalname file)) file
    = Ok created →
  ∃ r t d appended,
    uploadSpreadsheetController req w = (Ok r, t)
    ∧ status r = 201
    ∧ body_spreadsheet (resp_body r) = Some d
    ∧ last t
      = Some (AxiosGet
                (n8n_url (or_str (env_N8N_WEBHOOK_URL w) default_n8n_url)
                   ([("spreadsheetId", fr_id created); ("timestamp", now_ISO w);
                     ("source", "RetailSyncSaaS")] ++ appended)) None)
    ∧ ("publicUrl", sheet_url (fr_id created)) ∈ appended
    ∧ ("isPublic", if bool_decide (sd_isPublic d = Some true) then "true" else "false")
        ∈ appended.
Proof.
  intros Huser Hfile Hc.
  destruct (uploadSpreadsheet_outcome tok file (body_fileName req) w)
    as [(e & He & _) | (created' & d & t & Hc' & Hrun & Hid & Hpub)]; [congruence|].
  assert (created' = created) as -> by congruence.
  assert (or_str (sd_publicUrl d) (sheet_url (sd_id d)) = sheet_url (fr_id created))
    as Hurl.
  { rewrite Hid. by destruct Hpub as [-> | ->]; [|rewrite Hid]. }
  pose proof (uploadSpreadsheetController_run req w tok file Huser Hfile) as Hctl.
  rewrite Hrun in Hctl. simpl in Hctl.
  rewrite sendToN8n_upload_run, Hurl, Hid in Hctl. simpl in Hctl.
  set (appended := spec_metadata_params
                     (upload_metadata d (sheet_url (fr_id created)) (req_user req) file))
    in *.
  assert (("publicUrl", sheet_url (fr_id created)) ∈ appended
          ∧ ("isPublic", if bool_decide (sd_isPublic d = Some true) then "true" else "false")
              ∈ appended) as [Hp Hi].
  { split.
    - apply (spec_metadata_params_elem _ _ (MVal (VStr (sheet_url (fr_id created)))));
        [|done..].
      unfold upload_metadata. rewrite !elem_of_cons. auto.
    - apply (spec_metadata_params_elem _ _
               (MVal (VStr (if bool_decide (sd_isPublic d = Some true)
                            then "true" else "false")))); [|done..].
      unfold upload_metadata. rewrite !elem_of_cons. auto 10. }
  destruct (http_get w None _) as [st data|msg];
    [destruct (default_validateStatus st)|];
    eexists _, _, d, appended; (split; [exact Hctl|]); simpl;
    (split; [done|]); (split; [done|]); (split; [by rewrite last_snoc|]); done.
Qed.

Lemma upload_forwards_sharing_url_witness :
  ∃ r t d appended,
    uploadSpreadsheetController (sample_request true (Some "tok"))
      (sample_world None (Throw "denied") (Response 200 "")) = (Ok r, t)
    ∧ body_spreadsheet (resp_body r) = Some d
    ∧ sd_isPublic d = Some false
    ∧ ("publicUrl", "https://docs.google.com/spreadsheets/d/new-1/edit?usp=sharing")
        ∈ appended
    ∧ last t
      = Some (AxiosGet
                (n8n_url "http://localhost:5678/webhook/x?mode=test"
                   ([("spreadsheetId", "new-1"); ("timestamp", "2024-05-01T10:00:00.000Z");
                     ("source", "RetailSyncSaaS")] ++ appended)) None).
Proof.
  destruct (upload_forwards_sharing_url (sample_request true (Some "tok"))
              (sample_world None (Throw "denied") (Response 200 ""))
              "tok" stock_upload (mkFileResource "new-1" "stock.csv" None None [])
              eq_refl eq_refl eq_refl)
    as (r & t & d & appended & Hrun & _ & Hd & Hlast & Hurl & _).
  exists r, t, d, appended. split; [exact Hrun|]. split; [exact Hd|].
  split; [|split; [exact Hurl | exact Hlast]].
  vm_compute in Hrun. injection Hrun as <- _. by injection Hd as <-.
Defined.

Lemma upload_controller_cases (req : apiRequest) (w : world) :
  (user_accessToken req = None
   ∧ uploadSpreadsheetController req w
     = (Ok (mkResponse 401
              (BMessage "Authentication required or access token missing.")), []))
  ∨ (∃ tok,
       user_accessToken req = Some tok ∧ req_file req = None
       ∧ uploadSpreadsheetController req w
         = (Ok (mkResponse 400
                  (BMessage "No file uploaded. Please upload a spreadsheet file.")), []))
  ∨ (∃ tok file e,
       user_accessToken req = Some tok ∧ req_file req = Some file
       ∧ drive_files_create w tok (or_str (body_fileName req) (originalname file)) file
         = Throw e
       ∧ uploadSpreadsheetController req w
         = (Ok (mkResponse 500
                  (BMessageError "Failed to upload spreadsheet to Google Drive."
                     ("Failed to upload spreadsheet. Reason: " +:+ e))),
            [DriveFilesCreate (or_str (body_fileName req) (originalname file))
               "application/vnd.google-apps.spreadsheet" (mimetype file)]))
  ∨ (∃ tok file created message d forwarding rest url,
       user_accessToken req = Some tok ∧ req_file req = Some file
       ∧ drive_files_create w tok (or_str (body_fileName req) (originalname file)) file
         = Ok created
       ∧ uploadSpreadsheetController req w
         = (Ok (mkResponse 201 (BUploaded message d forwarding)),
            DriveFilesCreate (or_str (body_fileName req) (originalname file))
              "application/vnd.google-apps.spreadsheet" (mimetype file)
            :: rest)
       ∧ last rest = Some (AxiosGet url None)
       ∧ ∀ n m md, DriveFilesCreate n m md ∉ rest).
Proof.
  destruct (user_accessToken req) as [tok|] eqn:Huser.
  2: { left. split; [done|]. unfold uploadSpreadsheetController. by rewrite Huser. }
  right.
  destruct (req_file req) as [file|] eqn:Hfile.
  2: { left. exists tok. split; [done|]. split; [done|].
       unfold uploadSpreadsheetController. by rewrite Huser, Hfile. }
  right.
  rewrite (uploadSpreadsheetController_run req w tok file) by done.
  rewrite uploadSpreadsheet_run. simpl.
  destruct (drive_files_create w tok _ file) as [created|e] eqn:Hc.
  2: { left. by exists tok, file, e. }
  right. exists tok, file, created.
  rewrite makeFilePublic_run.
  destruct (drive_permissions_create w tok (fr_id created)) as [p|e];
    [destruct (drive_files_get w tok (fr_id created) info_fields) as [fi|e]|];
    rewrite sendToN8n_upload_run; simpl;
    match goal with
    | |- context [http_get w None ?u] =>
        destruct (http_get w None u) as [st data|msg];
          [destruct (default_validateStatus st)|]
    end;
    eexists _, _, _, _, _; (split; [done|]); (split; [done|]); (split; [done|]);
    (split; [reflexivity|]); (split; [reflexivity|]);
    intros n m md Hin; repeat (apply elem_of_cons in Hin as [[=]|Hin]);
    by apply elem_of_nil in Hin.
Qed.

(** X18. The upload controller never lets an error escape.  It answers 201
    exactly when the request has a token and a file and the creation
    succeeded, and then the forward GET is the last call; otherwise it
    answers 400, 401 or 500 after at most one remote call. *)
Theorem upload_controller_always_answers (req : apiRequest) (w : world) :
  ∃ r t,
    uploadSpreadsheetController req w = (Ok r, t)
    ∧ (status r = 201 ∨ status r = 400 ∨ status r = 401 ∨ status r = 500)
    ∧ (status r = 201
       ↔ ∃ tok file created,
           user_accessToken req = Some tok ∧ req_file req = Some file
           ∧ drive_files_create w tok
               (or_str (body_fileName req) (originalname file)) file = Ok created)
    ∧ (status r = 201 → ∃ url, last t = Some (AxiosGet url None))
    ∧ (status r ≠ 201 → (length t ≤ 1)%nat).
Proof.
  destruct (upload_controller_cases req w)
    as [(Hu & ->) | [(tok & Hu & Hf & ->) | [(tok & file & e & Hu & Hf & Hc & ->)
       | (tok & file & created & msg & d & fwd & rest & url & Hu & Hf & Hc & -> & Hlast
          & _)]]];
    eexists _, _; (split; [reflexivity|]); simpl.
  - split; [auto|]. split; [|split; [intros [=] | auto]].
    split; [intros [=] | intros (?&?&?&?&_); congruence].
  - split; [auto|]. split; [|split; [intros [=] | auto]].
    split; [intros [=] | intros (?&?&?&?&?&_); congruence].
  - split; [auto|]. split; [|split; [intros [=] | auto]].
    split; [intros [=] | intros (?&?&?&?&?&?); congruence].
  - split; [auto|]. split; [split; eauto 10|].
    split; [|done]. intros _. exists url. by rewrite last_cons, Hlast.
Qed.

(** X19. Behind [ensureAuthenticated] the controller's own token check
    never fires: a 401 of the guarded upload handler always carries one of
    the middleware's two messages, and once the middleware lets a request
    through the controller does not answer 401. *)
Theorem guarded_upload_401_is_middleware (req : apiRequest) (w : world) :
  (∀ r t, route ensureAuthenticated uploadSpreadsheetController req w = (Ok r, t) →
          status r = 401 →
          resp_body r = BMessage "Access token missing in session."
          ∨ resp_body r = BMessage "Unauthorized. Please log in.")
  ∧ (ensureAuthenticated req = Next →
     ∃ r t, uploadSpreadsheetController req w = (Ok r, t) ∧ status r ≠ 401).
Proof.
  assert (ensureAuthenticated req = Next →
          ∃ r t, uploadSpreadsheetController req w = (Ok r, t) ∧ status r ≠ 401) as Hnext.
  { unfold ensureAuthenticated.
    destruct (isAuthenticated req); [|done].
    destruct (user_accessToken req) as [tok|] eqn:Htok; [|done]. intros _.
    destruct (upload_controller_cases req w)
      as [(Hu & _) | [(? & _ & _ & ->) | [(? & ? & ? & _ & _ & _ & ->)
         | (? & ? & ? & ? & ? & ? & ? & ? & _ & _ & _ & -> & _ & _)]]];
      [congruence | | |]; eexists _, _; (split; [reflexivity|]); done. }
  split; [|exact Hnext].
  intros r t Hrun Hst. unfold route in Hrun.
  destruct (ensureAuthenticated req) as [|r'] eqn:Hmw.
  - destruct (Hnext eq_refl) as (r0 & t0 & Hrun0 & Hne). congruence.
  - injection Hrun as <- <-. unfold ensureAuthenticated in Hmw.
    destruct (isAuthenticated req); [destruct (user_accessToken req); [done|]|];
      injection Hmw as <-; auto.
Qed.

Lemma guarded_upload_401_is_middleware_witness :
  ∃ r t,
    uploadSpreadsheetController (sample_request true (Some "tok")) calm_world = (Ok r, t)
    ∧ status r ≠ 401.
Proof.
  destruct (guarded_upload_401_is_middleware (sample_request true (Some "tok"))
              calm_world) as [_ Hnext].
  apply Hnext. reflexivity.
Defined.

(** ** copySheetController *)

(** X20. With a token on the user record, a copy request without
    [sourceSheetId] (or with an empty one) is answered 400 with
    [Missing required field: sourceSheetId]; Drive is not called. *)
Theorem copy_controller_missing_source (req : sheetRequest) (w : world) tok :
  accessToken_of (sr_user req) = Some tok →
  sr_sourceSheetId req = None ∨ sr_sourceSheetId req = Some "" →
  copySheetController req w
  = (Ok (mkSheetResponse 400 (SbMessage "Missing required field: sourceSheetId")), []).
Proof.
  intros Htok Hid. unfold copySheetController. rewrite Htok.
  by destruct Hid as [-> | ->].
Qed.

Lemma copy_controller_missing_source_witness :
  copySheetController (sample_sheetRequest (Some "tok") None MetaAbsent) calm_world
  = (Ok (mkSheetResponse 400 (SbMessage "Missing required field: sourceSheetId")), []).
Proof.
  apply (copy_controller_missing_source _ _ "tok"); [reflexivity | by left].
Defined.

(** X21. A copy request succeeds even when the source's name cannot be
    read: if that read fails and Drive performs the copy, the answer is 201
    with the new file, which was requested under the given non-empty name or
    else under the name [Copy of Spreadsheet]. *)
Theorem copy_controller_survives_name_failure (req : sheetRequest) (w : world)
    tok id e copy :
  accessToken_of (sr_user req) = Some tok →
  sr_sourceSheetId req = Some id → id ≠ "" →
  drive_files_get w tok id "name" = Throw e →
  drive_files_copy w tok id (or_str (sr_newSheetName req) "Copy of Spreadsheet")
    = Ok copy →
  copySheetController req w
  = (Ok (mkSheetResponse 201 (SbCopied "Sheet copied successfully!" copy)),
     [DriveFilesGet id "name";
      DriveFilesCopy id (or_str (sr_newSheetName req) "Copy of Spreadsheet")]).
Proof.
  intros Htok Hid Hne Hget Hcopy.
  unfold copySheetController. rewrite Htok, Hid. simpl.
  destruct (String.eqb_spec id ""); [done|]. simpl.
  unfold_M. rewrite copySheet_run. cbv zeta. rewrite Hget.
  change ("Copy of " +:+ "Spreadsheet") with "Copy of Spreadsheet".
  by rewrite Hcopy.
Qed.

Lemma copy_controller_survives_name_failure_witness :
  copySheetController (sample_sheetRequest (Some "tok") (Some "src-1") MetaAbsent)
    (with_drive_files_get calm_world (λ _ _ _, Throw "File not found: src-1."))
  = (Ok (mkSheetResponse 201
           (SbCopied "Sheet copied successfully!"
              (mkFileResource "copy-1" "Copy of Spreadsheet" None None []))),
     [DriveFilesGet "src-1" "name"; DriveFilesCopy "src-1" "Copy of Spreadsheet"]).
Proof.
  exact (copy_controller_survives_name_failure
           (sample_sheetRequest (Some "tok") (Some "src-1") MetaAbsent)
           (with_drive_files_get calm_world (λ _ _ _, Throw "File not found: src-1."))
           "tok" "src-1" "File not found: src-1."
           (mkFileResource "copy-1" "Copy of Spreadsheet" None None [])
           eq_refl eq_refl ltac:(discriminate) eq_refl eq_refl).
Defined.

(** X22. When Drive refuses the copy that was requested, the answer is
    500; its [error] is the provider's reason wrapped by [copySheet] with the
    source id.  The copy requested is the one under the given non-empty
    name, or else under "Copy of " and the source's name ([Spreadsheet] when
    that name could not be read). *)
Theorem copy_controller_copy_failure (req : sheetRequest) (w : world) tok id e :
  accessToken_of (sr_user req) = Some tok →
  sr_sourceSheetId req = Some id → id ≠ "" →
  let originalName := match drive_files_get w tok id "name" with
                      | Ok fileMetadata => fr_name fileMetadata
                      | Throw _ => "Spreadsheet"
                      end in
  let name := or_str (sr_newSheetName req) ("Copy of " +:+ originalName) in
  drive_files_copy w tok id name = Throw e →
  copySheetController req w
  = (Ok (mkSheetResponse 500
           (SbMessageError "Failed to copy the Google Sheet."
              ("Failed to copy Google Sheet (ID: " +:+ id +:+ "). Reason: " +:+ e))),
     [DriveFilesGet id "name"; DriveFilesCopy id name]).
Proof.
  intros Htok Hid Hne originalName name Hcopy.
  unfold copySheetController. rewrite Htok, Hid. simpl.
  destruct (String.eqb_spec id ""); [done|]. simpl.
  unfold_M. rewrite copySheet_run. cbv zeta.
  fold originalName. fold name. by rewrite Hcopy.
Qed.

Lemma copy_controller_copy_failure_witness :
  copySheetController (sample_sheetRequest (Some "tok") (Some "src-1") MetaAbsent)
    (with_drive_files_copy calm_world
       (λ _ _ name, if String.eqb name "Copy of Budget" then Throw "rateLimitExceeded"
                    else Ok budget_file))
  = (Ok (mkSheetResponse 500
           (SbMessageError "Failed to copy the Google Sheet."
              "Failed to copy Google Sheet (ID: src-1). Reason: rateLimitExceeded")),
     [DriveFilesGet "src-1" "name"; DriveFilesCopy "src-1" "Copy of Budget"]).
Proof.
  exact (copy_controller_copy_failure
           (sample_sheetRequest (Some "tok") (Some "src-1") MetaAbsent)
           (with_drive_files_copy calm_world
              (λ _ _ name, if String.eqb name "Copy of Budget" then Throw "rateLimitExceeded"
                           else Ok budget_file))
           "tok" "src-1" "rateLimitExceeded" eq_refl eq_refl ltac:(discriminate) eq_refl).
Defined.

(** ** sendToN8nController *)

(** X23. With a token on the user record, the forward endpoint checks
    [spreadsheetId] before [n8nWebhookUrl]: a request missing the first is
    answered 400 naming it (whether or not the URL is there), one missing
    only the URL is answered 400 naming the URL; no request is sent. *)
Theorem send_controller_validation (req : sheetRequest) (w : world) tok :
  accessToken_of (sr_user req) = Some tok →
  (sr_spreadsheetId req = None ∨ sr_spreadsheetId req = Some "" →
     sendToN8nController req w
     = (Ok (mkSheetResponse 400 (SbMessage "Missing required field: spreadsheetId")), []))
  ∧ (∀ id, sr_spreadsheetId req = Some id → id ≠ "" →
       sr_n8nWebhookUrl req = None ∨ sr_n8nWebhookUrl req = Some "" →
       sendToN8nController req w
       = (Ok (mkSheetResponse 400 (SbMessage "Missing required field: n8nWebhookUrl")),
          [])).
Proof.
  intros Htok. unfold sendToN8nController. rewrite Htok. split.
  - by intros [-> | ->].
  - intros id -> Hne Hurl. simpl.
    destruct (String.eqb_spec id ""); [done|]. simpl.
    by destruct Hurl as [-> | ->].
Qed.

Lemma send_controller_validation_witness :
  sendToN8nController
    (mkSheetRequest (Some (sample_user (Some "tok"))) None None None None MetaAbsent)
    calm_world
  = (Ok (mkSheetResponse 400 (SbMessage "Missing required field: spreadsheetId")), [])
  ∧ sendToN8nController
      (mkSheetRequest (Some (sample_user (Some "tok"))) None None (Some "sheet-1") (Some "")
         MetaAbsent) calm_world
    = (Ok (mkSheetResponse 400 (SbMessage "Missing required field: n8nWebhookUrl")), []).
Proof.
  split.
  - destruct (send_controller_validation
                (mkSheetRequest (Some (sample_user (Some "tok"))) None None None None
                   MetaAbsent) calm_world "tok" eq_refl) as [Hid _].
    apply Hid. by left.
  - destruct (send_controller_validation
                (mkSheetRequest (Some (sample_user (Some "tok"))) None None
                   (Some "sheet-1") (Some "") MetaAbsent) calm_world "tok" eq_refl)
      as [_ Hurl].
    apply (Hurl "sheet-1"); [reflexivity | discriminate | by right].
Defined.

(** X24. A [metadata] of [null] makes the forward endpoint answer 500
    without sending any request. *)
Theorem send_controller_null_metadata (req : sheetRequest) (w : world) tok id url :
  accessToken_of (sr_user req) = Some tok →
  sr_spreadsheetId req = Some id → id ≠ "" →
  sr_n8nWebhookUrl req = Some url → url ≠ "" →
  sr_metadata req = MetaNull →
  ∃ e,
    sendToN8nController req w
    = (Ok (mkSheetResponse 500
             (SbMessageError "Failed to send spreadsheet ID to n8n workflow." e)), []).
Proof.
  intros Htok Hid Hne Hurl Hune Hmeta.
  unfold sendToN8nController. rewrite Htok, Hid, Hurl, Hmeta. simpl.
  destruct (String.eqb_spec id ""); [done|].
  destruct (String.eqb_spec url ""); [done|]. simpl.
  eexists. reflexivity.
Qed.

Lemma send_controller_null_metadata_witness :
  ∃ e,
    sendToN8nController (sample_sheetRequest (Some "tok") None MetaNull) calm_world
    = (Ok (mkSheetResponse 500
             (SbMessageError "Failed to send spreadsheet ID to n8n workflow." e)), []).
Proof.
  apply (send_controller_null_metadata _ _ "tok" "sheet-1"
           "http://localhost:5678/webhook/x");
    [reflexivity | reflexivity | discriminate | reflexivity | discriminate | reflexivity].
Defined.



(** ** The upload route: filter, limits and what reaches Drive *)

Lemma fileFilter_accepts (file : uploadedFile) (b : bool) :
  fileFilter file = Ok b →
  mimetype file = "application/vnd.ms-excel"
  ∨ mimetype file = "application/vnd.openxmlformats-officedocument.spreadsheetml.sheet"
  ∨ mimetype file = "text/csv".
Proof.
  unfold fileFilter.
  destruct (String.eqb_spec (mimetype file) "application/vnd.ms-excel"); [auto|].
  destruct (String.eqb_spec (mimetype file)
              "application/vnd.openxmlformats-officedocument.spreadsheetml.sheet");
    [auto|].
  destruct (String.eqb_spec (mimetype file) "text/csv"); [auto|]. done.
Qed.

Lemma fileFilter_rejects (file : uploadedFile) :
  mimetype file ≠ "application/vnd.ms-excel" →
  mimetype file ≠ "application/vnd.openxmlformats-officedocument.spreadsheetml.sheet" →
  mimetype file ≠ "text/csv" →
  fileFilter file = Throw "Only spreadsheet files (.xls, .xlsx, .csv) are allowed.".
Proof.
  intros H1 H2 H3. unfold fileFilter.
  destruct (String.eqb_spec (mimetype file) "application/vnd.ms-excel"); [done|].
  destruct (String.eqb_spec (mimetype file)
              "application/vnd.openxmlformats-officedocument.spreadsheetml.sheet");
    [done|].
  by destruct (String.eqb_spec (mimetype file) "text/csv").
Qed.

(** X26. An upload whose file is of another type than .xls, .xlsx or .csv
    is answered 400 with the filter's message by the route's error handler;
    the controller does not run and no remote call is issued. *)
Theorem upload_route_rejects_other_types (req : apiRequest) (w : world)
    (file : uploadedFile) (limitError : option string) :
  ensureAuthenticated req = Next →
  mimetype file ≠ "application/vnd.ms-excel" →
  mimetype file ≠ "application/vnd.openxmlformats-officedocument.spreadsheetml.sheet" →
  mimetype file ≠ "text/csv" →
  upload_route req (Some file) limitError w
  = (Ok (mkResponse 400
           (BMessage "Only spreadsheet files (.xls, .xlsx, .csv) are allowed.")), []).
Proof.
  intros Hmw H1 H2 H3. unfold upload_route, route, upload_single.
  by rewrite Hmw, fileFilter_rejects.
Qed.

Lemma upload_route_rejects_other_types_witness :
  upload_route (sample_request true (Some "tok")) (Some pdf_upload) None calm_world
  = (Ok (mkResponse 400
           (BMessage "Only spreadsheet files (.xls, .xlsx, .csv) are allowed.")), []).
Proof.
  apply upload_route_rejects_other_types; [reflexivity | discriminate..].
Defined.

(** X28. When multer raises a limit error for a file of an accepted type,
    the route answers 400 with [File upload error: ] followed by multer's
    message, and no remote call is issued. *)
Theorem upload_route_limit_error (req : apiRequest) (w : world)
    (file : uploadedFile) (message : string) b :
  ensureAuthenticated req = Next →
  fileFilter file = Ok b →
  upload_route req (Some file) (Some message) w
  = (Ok (mkResponse 400 (BMessage ("File upload error: " +:+ message))), []).
Proof.
  intros Hmw Hf. unfold upload_route, route, upload_single.
  by rewrite Hmw, Hf.
Qed.

Lemma upload_route_limit_error_witness :
  upload_route (sample_request true (Some "tok")) (Some stock_upload)
    (Some "File too large") calm_world
  = (Ok (mkResponse 400 (BMessage "File upload error: File too large")), []).
Proof.
  exact (upload_route_limit_error (sample_request true (Some "tok")) calm_world
           stock_upload "File too large" true eq_refl eq_refl).
Defined.

(** X29. Whatever the request, every [files.create] the upload route issues
    asks for conversion to a Google spreadsheet and carries media of one of
    the three accepted types: it is the creation for the request's file,
    which passed the filter without a limit error. *)
Theorem upload_route_creates_only_spreadsheets (req : apiRequest) (w : world)
    (part : option uploadedFile) (limitError : option string) n m md :
  DriveFilesCreate n m md ∈ snd (upload_route req part limitError w) →
  m = "application/vnd.google-apps.spreadsheet"
  ∧ (md = "application/vnd.ms-excel"
     ∨ md = "application/vnd.openxmlformats-officedocument.spreadsheetml.sheet"
     ∨ md = "text/csv")
  ∧ ∃ file, part = Some file ∧ md = mimetype file ∧ limitError = None.
Proof.
  unfold upload_route, route.
  destruct (ensureAuthenticated req); [|by intros ?%elem_of_nil].
  unfold upload_single.
  assert (∀ file' : option uploadedFile,
            DriveFilesCreate n m md
              ∈ snd (uploadSpreadsheetController (set_file req file') w) →
            ∃ file, file' = Some file ∧ md = mimetype file
                    ∧ m = "application/vnd.google-apps.spreadsheet") as Hctl.
  { intros file' Hin.
    destruct (upload_controller_cases (set_file req file') w)
      as [(_ & Hrun) | [(? & _ & _ & Hrun) | [(? & file & ? & _ & Hf & _ & Hrun)
         | (? & file & ? & ? & ? & ? & rest & ? & _ & Hf & _ & Hrun & _ & Hrest)]]];
      rewrite Hrun in Hin; simpl in Hin.
    - by apply elem_of_nil in Hin.
    - by apply elem_of_nil in Hin.
    - apply elem_of_cons in Hin as [[= -> -> ->] | Hin]; [|by apply elem_of_nil in Hin].
      exists file. simpl in Hf. by rewrite Hf.
    - apply elem_of_cons in Hin as [[= -> -> ->] | Hin]; [|by apply Hrest in Hin].
      exists file. simpl in Hf. by rewrite Hf. }
  destruct part as [file|]; simpl.
  - destruct (fileFilter file) as [b|e] eqn:Hf; simpl; [|by intros ?%elem_of_nil].
    destruct limitError as [msg|]; simpl; [by intros ?%elem_of_nil|].
    intros (file' & [= <-] & -> & ->)%Hctl.
    split; [done|]. split; [by apply (fileFilter_accepts file b)|]. eauto.
  - intros (file' & [=] & _)%Hctl.
Qed.

Lemma upload_route_creates_only_spreadsheets_witness :
  DriveFilesCreate "stock.csv" "application/vnd.google-apps.spreadsheet" "text/csv"
    ∈ snd (upload_route (sample_request true (Some "tok")) (Some stock_upload) None
             calm_world)
  ∧ ∃ file, Some stock_upload = Some file ∧ "text/csv" = mimetype file.
Proof.
  assert (DriveFilesCreate "stock.csv" "application/vnd.google-apps.spreadsheet" "text/csv"
            ∈ snd (upload_route (sample_request true (Some "tok")) (Some stock_upload)
                     None calm_world)) as Hin.
  { vm_compute. apply list_elem_of_here. }
  split; [exact Hin|].
  destruct (upload_route_creates_only_spreadsheets _ _ _ _ _ _ _ Hin)
    as (_ & _ & file & Hpart & Hmd & _).
  eauto.
Defined.

(** ** verifyPublicAccess and the encoding, completed *)

(** X27. The reachability verification answers [true] exactly when its GET
    met a response with a status below 400; a response with status 400 or
    above (which axios rejects) counts like no response at all. *)
Theorem verifyPublicAccess_true_iff (fileId : string) (w : world) :
  ∃ b,
    verifyPublicAccess fileId w = (Ok b, [AxiosGet (sheet_url fileId) (Some 0)])
    ∧ (b = true
       ↔ ∃ st data, http_get w (Some 0) (sheet_url fileId) = Response st data ∧ st < 400)
    ∧ (∀ st data, http_get w (Some 0) (sheet_url fileId) = Response st data →
         400 ≤ st → b = false).
Proof.
  eexists. split; [apply verifyPublicAccess_run|].
  destruct (http_get w (Some 0) (sheet_url fileId)) as [st data|msg].
  - split.
    + split.
      * intros H%Z.ltb_lt. eauto.
      * intros (st' & data' & [= <- <-] & H). by apply Z.ltb_lt.
    + intros st' data' [= <- <-] H. apply Z.ltb_ge. lia.
  - split; [|done]. split; [done | by intros (? & ? & [=] & _)].
Qed.

(** X30. Encoding leaves a text of letters, digits and [* - . _] as it is:
    an identifier made of such characters is sent verbatim. *)
Theorem form_encode_unreserved_identity (s : string) :
  (∀ c, contains_char c s = true → form_keep (N_of_ascii c) = true) →
  form_encode s = s.
Proof.
  induction s as [|a s IH]; intros Hkeep; [done|].
  simpl. rewrite IH.
  - assert (form_keep (N_of_ascii a) = true) as Ha.
    { apply Hkeep. simpl. by rewrite Ascii.eqb_refl. }
    unfold form_byte. rewrite Ha.
    destruct (N_of_ascii a =? 32)%N eqn:Hsp; [|done].
    apply N.eqb_eq in Hsp. rewrite Hsp in Ha. done.
  - intros c Hc. apply Hkeep. simpl. rewrite Hc. by destruct (Ascii.eqb c a).
Qed.

Lemma form_encode_unreserved_identity_witness :
  form_encode "1Dv2jYXh9l2j_Mzfk-SKO7" = "1Dv2jYXh9l2j_Mzfk-SKO7".
Proof.
  apply form_encode_unreserved_identity.
  intros c Hc.
  destruct c as [[] [] [] [] [] [] [] []]; try discriminate Hc; reflexivity.
Defined.

(** ** The unconditional properties at concrete inputs *)

Lemma webhook_always_answers_witness :
  ∃ r t,
    getSheetDataWebhook (sample_query (Some "s3cret")) calm_world = (Ok r, t)
    ∧ status r = 200 ∧ length t = 2%nat.
Proof.
  destruct (webhook_always_answers (sample_query (Some "s3cret")) calm_world)
    as (r & t & Hrun & _ & _ & _ & Hlen).
  exists r, t. split; [exact Hrun|].
  assert (status r = 200) as Hst.
  { vm_compute in Hrun. by injection Hrun as <- _. }
  split; [exact Hst | exact (Hlen Hst)].
Defined.

Lemma form_encode_safe_witness :
  contains_char "&" (form_encode "a&b=c d") = false
  ∧ form_encode "a&b=c d" = "a%26b%3Dc+d".
Proof.
  destruct (form_encode_safe "a&b=c d") as (_ & Hamp & _).
  split; [exact Hamp | reflexivity].
Defined.

Lemma n8n_params_shape_witness :
  ∃ appended,
    snd (sendToN8n "sheet-1" "http://localhost:5678/webhook/x"
           [("spreadsheetId", MVal (VStr "other")); ("dryRun", MVal (VBool false))]
           calm_world)
    = [AxiosGet
         (n8n_url "http://localhost:5678/webhook/x"
            ([("spreadsheetId", "sheet-1"); ("timestamp", now_ISO calm_world);
              ("source", "RetailSyncSaaS")] ++ appended)) None]
    ∧ ("spreadsheetId", "other") ∈ appended
    ∧ ("dryRun", "false") ∈ appended.
Proof.
  destruct (n8n_params_shape "sheet-1" "http://localhost:5678/webhook/x"
              [("spreadsheetId", MVal (VStr "other")); ("dryRun", MVal (VBool false))]
              calm_world) as (appended & Htrace & Hmem & Hfalse & _).
  { intros k v Hin Hp.
    repeat (apply elem_of_cons in Hin as [[= -> ->] | Hin]; [by eexists|]).
    by apply elem_of_nil in Hin. }
  exists appended. split; [exact Htrace|]. split.
  - apply Hmem. exists (MVal (VStr "other")). split; [apply list_elem_of_here | done].
  - apply Hfalse. apply list_elem_of_further, list_elem_of_here.
Defined.

Lemma upload_controller_always_answers_witness :
  ∃ r t url,
    uploadSpreadsheetController (sample_request true (Some "tok")) calm_world = (Ok r, t)
    ∧ status r = 201 ∧ last t = Some (AxiosGet url None).
Proof.
  destruct (upload_controller_always_answers (sample_request true (Some "tok")) calm_world)
    as (r & t & Hrun & _ & Hiff & Hlast & _).
  assert (status r = 201) as Hst.
  { apply Hiff. by exists "tok", stock_upload, (mkFileResource "new-1" "stock.csv" None None []). }
  destruct (Hlast Hst) as [url Hurl].
  by exists r, t, url.
Defined.

Lemma verifyPublicAccess_true_iff_witness :
  verifyPublicAccess "new-1" (with_http calm_world (λ _ _, Response 404 "Not Found"))
  = (Ok false, [AxiosGet (sheet_url "new-1") (Some 0)]).
Proof.
  destruct (verifyPublicAccess_true_iff "new-1"
              (with_http calm_world (λ _ _, Response 404 "Not Found")))
    as (b & Hrun & _ & Hhigh).
  rewrite Hrun. by rewrite (Hhigh 404 "Not Found" eq_refl ltac:(lia)).
Defined.
